(** * capacitor-resources: the generation pipeline of [index.js]

    A shallow embedding of the command line tool that validates one icon
    and one splash image and writes resized / cropped variants for every
    selected platform.

    Conventions of the embedding:
    - JavaScript values that the program inspects dynamically
      ([settings.platforms]) are [JsValue]s; strings are [string]s;
    - bitmap dimensions are integers ([Z]); the result of the JavaScript
      division [/] is a rational ([Q]): for integers of the size of a
      bitmap dimension halving is exact in double precision, so the
      rational is the number the program computes;
    - Jimp image objects live in a heap (a list indexed by reference):
      [clone] allocates, [resize] and [crop] update in place;
    - promises are computations over the [World] that settle as
      [Fulfilled] or [Rejected], or never settle because an exception left
      a callback of the event loop ([Uncaught]);
    - the libraries the program calls (Jimp, fs-extra, path, require) and
      the files it loads with [require] are the fields of an [Env]; every
      call to the outside and every line on the console is recorded in the
      trace of the [World]. *)

From Stdlib Require Import ZArith QArith Lia Ascii String DecimalString.
From stdpp Require Import base list strings.

Local Open Scope string_scope.
Local Open Scope Z_scope.

(** ** JavaScript values *)

Module Js.

Inductive JsValue : Type :=
| JsUndefined
| JsNull
| JsBool (b : bool)
| JsNumber (z : Z)
| JsString (s : string).

(** [!v] is [negb (truthy v)]. *)
Definition truthy (v : JsValue) : bool :=
  match v with
  | JsUndefined | JsNull => false
  | JsBool b => b
  | JsNumber z => negb (z =? 0)
  | JsString s => negb (String.eqb s "")
  end.

(** [typeof v === 'string'] *)
Definition is_string (v : JsValue) : bool :=
  match v with JsString _ => true | _ => false end.

(** [a || b] *)
Definition or (a b : JsValue) : JsValue := if truthy a then a else b.

(** [s.split(sep)] for a one character separator: the empty string
    splits into one empty token. *)
Fixpoint split (sep : ascii) (s : string) : list string :=
  match s with
  | EmptyString => [""]
  | String c r =>
      if Ascii.eqb c sep then "" :: split sep r
      else match split sep r with
           | h :: t => String c h :: t
           | [] => [String c ""]
           end
  end.

(** ['' + array]: the elements joined by commas. *)
Definition array_to_string (l : list string) : string := String.concat "," l.

(** ['' + n] for an integer [n]. *)
Definition number_to_string (n : Z) : string :=
  NilZero.string_of_int (Z.to_int n).

(** [_.find(l, pred)] *)
Fixpoint find {A} (l : list A) (pred : A -> bool) : option A :=
  match l with
  | [] => None
  | x :: r => if pred x then Some x else find r pred
  end.

(** Truthiness of the result of [_.find] over strings ([undefined] when
    nothing is found). *)
Definition found_truthy (o : option string) : bool :=
  match o with
  | Some s => truthy (JsString s)
  | None => false
  end.

End Js.
Import Js.

(** ** Data *)

Record Bitmap : Type := mkBitmap {
  width : Z;
  height : Z;
  data : list Z
}.

(** A thrown or rejected value: a string of the program itself, or an
    error object handed over by a library. *)
Inductive Reason : Type :=
| Thrown (msg : string)
| LibError (msg : string).

(** Modelled from the spec: the definition files under [./platforms/] are
    not part of the sources.  A definition carries a [name] and, for icons,
    a [size], for splash screens a [width] and a [height]; each transform
    reads its own fields only. *)
Record Definition_ : Type := mkDefinition {
  name : string;
  size : Z;
  def_width : Z;
  def_height : Z
}.

(** Modelled from the spec: a definition set ([platform], [type], [path],
    [definitions]), the value of [require(def)]. *)
Record Config : Type := mkConfig {
  platform : string;
  type : string;
  path : string;
  definitions : list Definition_
}.

Record Settings : Type := mkSettings {
  iconfile : string;
  splashfile : string;
  platforms : JsValue;
  outputdirectory : string
}.

(** [imageObjects]: references into the heap of image objects. *)
Record ImageObjects : Type := mkImageObjects {
  icon : nat;
  splash : nat
}.

(** ** The outside world *)

Inductive Level : Type := Info | Success | Error | Header.

(** [EvDisplay l msg] is the call [display.l(msg)]: the lines it prints
    are [msg] with the indentation, the mark and the colour of the level.
    [EvConsoleLog] and [EvConsoleError] are the direct calls of
    [console.log], with one argument and with ['Error: '] and a reason. *)
Inductive Event : Type :=
| EvDisplay (l : Level) (msg : string)
| EvConsoleLog (msg : string)
| EvJimpRead (file : string)
| EvPathExists (dir : string)
| EvEnsureDir (dir : string)
| EvResize (w h : Z)
| EvCrop (x y : Q) (w h : Z)
| EvWrite (file : string) (b : Bitmap) (err : option Reason)
| EvConsoleError (r : Reason).

(** The collaborators of the program. *)
Record Env : Type := mkEnv {
  jimp_read : string -> Reason + Bitmap;
  jimp_resize : Bitmap -> Z -> Z -> Reason + Bitmap;
  jimp_crop : Bitmap -> Q -> Q -> Z -> Z -> Reason + Bitmap;
  (** the error, if any, with which [write] calls its callback *)
  jimp_write : string -> Bitmap -> option Reason;
  fs_pathExists : string -> bool;
  fs_ensureDir : string -> option Reason;
  path_join : list string -> string;
  require : string -> Config;
  (** [require('./package.json').version] *)
  pjson_version : string
}.

Record World : Type := mkWorld {
  heap : list Bitmap;
  trace : list Event;
  g_selectedPlatforms : list string;
  g_imageObjects : option ImageObjects
}.

(** The state in which the program starts. *)
Definition initial : World :=
  {| heap := []; trace := []; g_selectedPlatforms := []; g_imageObjects := None |}.

(** ** Promises *)

Inductive Settled (A : Type) : Type :=
| Fulfilled (a : A)
| Rejected (r : Reason)
  (** an exception thrown by a callback that the event loop runs: no
      promise is rejected by it and the promise waited for stays pending *)
| Uncaught (r : Reason).
Arguments Fulfilled {A} a.
Arguments Rejected {A} r.
Arguments Uncaught {A} r.

Definition Promise (A : Type) : Type := World -> Settled A * World.

Definition resolve {A} (a : A) : Promise A := fun w => (Fulfilled a, w).
Definition reject {A} (r : Reason) : Promise A := fun w => (Rejected r, w).
Definition uncaught {A} (r : Reason) : Promise A := fun w => (Uncaught r, w).

(** [p.then(k)] *)
Definition then_ {A B} (p : Promise A) (k : A -> Promise B) : Promise B :=
  fun w =>
    match p w with
    | (Fulfilled a, w') => k a w'
    | (Rejected r, w') => (Rejected r, w')
    | (Uncaught r, w') => (Uncaught r, w')
    end.

(** [p.catch(k)] *)
Definition catch_ {A} (p : Promise A) (k : Reason -> Promise A) : Promise A :=
  fun w =>
    match p w with
    | (Rejected r, w') => k r w'
    | other => other
    end.

(** [var defer = Q.defer(); ...; return defer.promise]: the body tells
    how it settles the deferred, [inr a] for [defer.resolve(a)] and [inl r]
    for [defer.reject(r)].  A body that ends in a rejection nobody handles
    leaves the deferred pending. *)
Definition defer_promise {A} (body : Promise (Reason + A)) : Promise A :=
  fun w =>
    match body w with
    | (Fulfilled (inr a), w') => (Fulfilled a, w')
    | (Fulfilled (inl r), w') => (Rejected r, w')
    | (Rejected r, w') => (Uncaught r, w')
    | (Uncaught r, w') => (Uncaught r, w')
    end.

Declare Scope promise_scope.
Delimit Scope promise_scope with promise.
Notation "x <- p ;; k" := (then_ p (fun x => k))
  (at level 100, p at next level, right associativity) : promise_scope.
Notation "p ;; k" := (then_ p (fun _ => k))
  (at level 100, right associativity) : promise_scope.
Local Open Scope promise_scope.

(** Changes of the world: events appended to the trace, objects appended
    to the heap, an object overwritten. *)
Definition add_events (evs : list Event) (w : World) : World :=
  {| heap := heap w; trace := trace w ++ evs;
     g_selectedPlatforms := g_selectedPlatforms w;
     g_imageObjects := g_imageObjects w |}.

Definition add_objects (bs : list Bitmap) (w : World) : World :=
  {| heap := heap w ++ bs; trace := trace w;
     g_selectedPlatforms := g_selectedPlatforms w;
     g_imageObjects := g_imageObjects w |}.

Definition set_object (r : nat) (b : Bitmap) (w : World) : World :=
  {| heap := <[r := b]> (heap w); trace := trace w;
     g_selectedPlatforms := g_selectedPlatforms w;
     g_imageObjects := g_imageObjects w |}.

Definition emit (e : Event) : Promise unit :=
  fun w => (Fulfilled tt, add_events [e] w).

Definition set_selectedPlatforms (l : list string) : Promise unit :=
  fun w => (Fulfilled tt,
            {| heap := heap w; trace := trace w;
               g_selectedPlatforms := l;
               g_imageObjects := g_imageObjects w |}).

Definition set_imageObjects (o : ImageObjects) : Promise unit :=
  fun w => (Fulfilled tt,
            {| heap := heap w; trace := trace w;
               g_selectedPlatforms := g_selectedPlatforms w;
               g_imageObjects := Some o |}).

(** A new image object; its reference is the next free index. *)
Definition alloc (b : Bitmap) : Promise nat :=
  fun w => (Fulfilled (length (heap w)), add_objects [b] w).

(** Reading through a reference that holds no image is a [TypeError]. *)
Definition deref (r : nat) : Promise Bitmap :=
  fun w => match heap w !! r with
           | Some b => (Fulfilled b, w)
           | None => (Rejected (LibError "TypeError"), w)
           end.

(** The methods of Jimp change the image they are called on. *)
Definition store (r : nat) (b : Bitmap) : Promise unit :=
  fun w => (Fulfilled tt, set_object r b w).

(** [Q.mapSeries(l, f)]: one element after the other, stopping at the
    first that does not fulfil. *)
Fixpoint mapSeries {A B} (l : list A) (f : A -> Promise B) : Promise (list B) :=
  match l with
  | [] => resolve []
  | x :: r =>
      y <- f x ;;
      ys <- mapSeries r f ;;
      resolve (y :: ys)
  end.

Module display.
Definition info (s : string) : Promise unit := emit (EvDisplay Info s).
Definition success (s : string) : Promise unit := emit (EvDisplay Success s).
Definition error (s : string) : Promise unit := emit (EvDisplay Error s).
Definition header (s : string) : Promise unit := emit (EvDisplay Header s).
End display.

(** ** The registry *)

Definition PLATFORMS : list (string * list string) :=
  [ ("android", ["./platforms/icons/android"; "./platforms/splash/android"]);
    ("ios", ["./platforms/icons/ios"; "./platforms/splash/ios"]);
    ("windows", ["./platforms/icons/windows"; "./platforms/splash/windows"]);
    ("blackberry10", ["./platforms/icons/blackberry10"]) ].

(** [_.keys(PLATFORMS)] *)
Definition keys {V} (o : list (string * V)) : list string := map fst o.

(** [PLATFORMS[platform]] *)
Fixpoint get {V} (o : list (string * V)) (k : string) : option V :=
  match o with
  | [] => None
  | (k', v) :: r => if String.eqb k k' then Some v else get r k
  end.

(** ** Platform selection *)

(** The [forEach] of [checkPlatforms]: the tokens found among the keys and
    the others, both in the order of the tokens. *)
Fixpoint partition_platforms (platformsKeys platforms : list string)
  : list string * list string :=
  match platforms with
  | [] => ([], [])
  | p :: r =>
      let '(platformsToProcess, platformsUnknown) := partition_platforms platformsKeys r in
      if found_truthy (Js.find platformsKeys (fun k => String.eqb p k))
      then (p :: platformsToProcess, platformsUnknown)
      else (platformsToProcess, p :: platformsUnknown)
  end.

Definition as_string (v : JsValue) : string :=
  match v with JsString s => s | _ => "" end.

Definition checkPlatforms (settings : Settings) : Promise (list string) :=
  let platformsKeys := keys PLATFORMS in
  if negb (truthy (platforms settings)) || negb (is_string (platforms settings)) then
    display.success "Processing files for all platforms" ;;
    resolve platformsKeys
  else
    let platforms := split "," (as_string (platforms settings)) in
    let '(platformsToProcess, platformsUnknown) :=
      partition_platforms platformsKeys platforms in
    if (0 <? Z.of_nat (length platformsUnknown)) then
      display.error ("Bad platforms: " ++ array_to_string platformsUnknown) ;;
      reject (Thrown ("Bad platforms: " ++ array_to_string platformsUnknown))
    else
      display.success ("Processing files for: " ++ array_to_string platformsToProcess) ;;
      resolve platformsToProcess.

Section Pipeline.

Variable env : Env.

(** ** Validation *)

Definition dimensions (width height : Z) : string :=
  "(" ++ number_to_string width ++ "x" ++ number_to_string height ++ ")".

(** [Jimp.read(file)]: the decoded image becomes a new image object. *)
Definition Jimp_read (file : string) : Promise nat :=
  emit (EvJimpRead file) ;;
  match jimp_read env file with
  | inr b => alloc b
  | inl err => reject err
  end.

(** The source does not use its parameter [iconFileName]: the file read
    is [settings.iconfile]. *)
Definition checkIconFile (settings : Settings) (iconFileName : JsValue) : Promise nat :=
  defer_promise
    (catch_
       (image <- Jimp_read (iconfile settings) ;;
        bitmap <- deref image ;;
        let width := width bitmap in
        let height := height bitmap in
        if (width =? 1024) && (width =? height) then
          display.success ("Icon file ok " ++ dimensions width height) ;;
          resolve (inr image)
        else
          display.error ("Bad icon file " ++ dimensions width height) ;;
          resolve (inl (Thrown "Bad image format")))
       (fun err =>
          display.error "Could not load icon file" ;;
          resolve (inl err))).

Definition checkSplashFile (settings : Settings) (splashFileName : JsValue) : Promise nat :=
  defer_promise
    (catch_
       (image <- Jimp_read (splashfile settings) ;;
        bitmap <- deref image ;;
        let width := width bitmap in
        let height := height bitmap in
        if (width =? 2732) && (width =? height) then
          display.success ("Splash file ok " ++ dimensions width height) ;;
          resolve (inr image)
        else
          display.error ("Bad splash file " ++ dimensions width height) ;;
          resolve (inl (Thrown "Bad image format")))
       (fun err =>
          display.error "Could not load splash file" ;;
          resolve (inl err))).

(** [settings.splashFileName] is a property the settings do not have. *)
Definition getImages (settings : Settings) : Promise ImageObjects :=
  icon_image <- checkIconFile settings (JsString (iconfile settings)) ;;
  splash_image <- checkSplashFile settings JsUndefined ;;
  resolve {| icon := icon_image; splash := splash_image |}.

Definition checkOutPutDir (settings : Settings) : Promise unit :=
  let dir := outputdirectory settings in
  emit (EvPathExists dir) ;;
  if fs_pathExists env dir then
    display.success ("Output directory ok (" ++ dir ++ ")")
  else
    display.error ("Output directory not found (" ++ dir ++ ")") ;;
    reject (Thrown ("Output directory not found: " ++ dir)).

Definition check (settings : Settings) : Promise unit :=
  display.header "Checking files and directories" ;;
  selPlatforms <- checkPlatforms settings ;;
  set_selectedPlatforms selPlatforms ;;
  iobjs <- getImages settings ;;
  set_imageObjects iobjs ;;
  checkOutPutDir settings.

(** ** Generation *)

(** [imageObj.icon.clone()] and [imageObj.splash.clone()]: a new image
    object with a copy of the bitmap. *)
Definition clone (imageObj : option ImageObjects) (which : ImageObjects -> nat)
  : Promise nat :=
  match imageObj with
  | Some o => bitmap <- deref (which o) ;; alloc bitmap
  | None => reject (LibError "TypeError")
  end.

(** [image.write(outputFilePath, (err) => { if (err) throw (err); defer.resolve(); })]:
    the callback runs from the event loop once the file is written or
    the writing has failed. *)
Definition write (image : nat) (outputFilePath : string) : Promise unit :=
  bitmap <- deref image ;;
  defer_promise
    (let err := jimp_write env outputFilePath bitmap in
     emit (EvWrite outputFilePath bitmap err) ;;
     match err with
     | Some e => uncaught e
     | None => resolve (inr tt)
     end).

(** The rectangle that [transformSplash] cuts out of an image. *)
Definition cropRectangle (bitmap : Bitmap) (definition : Definition_) : Q * Q * Z * Z :=
  let x := (inject_Z (width bitmap - def_width definition) / 2)%Q in
  let y := (inject_Z (height bitmap - def_height definition) / 2)%Q in
  let width := def_width definition in
  let height := def_height definition in
  (x, y, width, height).

(** [transformIcon] and [transformSplash] are closures of
    [generateForConfig] over [imageObj] and [platformPath]. *)
Definition transformIcon (imageObj : option ImageObjects) (platformPath : string)
    (definition : Definition_) : Promise unit :=
  image <- clone imageObj icon ;;
  let outputFilePath := path_join env [platformPath; name definition] in
  bitmap <- deref image ;;
  emit (EvResize (size definition) (size definition)) ;;
  match jimp_resize env bitmap (size definition) (size definition) with
  | inl err => reject err
  | inr resized =>
      store image resized ;;
      write image outputFilePath
  end.

Definition transformSplash (imageObj : option ImageObjects) (platformPath : string)
    (definition : Definition_) : Promise unit :=
  image <- clone imageObj splash ;;
  bitmap <- deref image ;;
  let '(x, y, width, height) := cropRectangle bitmap definition in
  let outputFilePath := path_join env [platformPath; name definition] in
  emit (EvCrop x y width height) ;;
  match jimp_crop env bitmap x y width height with
  | inl err => reject err
  | inr cropped =>
      store image cropped ;;
      write image outputFilePath
  end.

Definition generateForConfig (imageObj : option ImageObjects) (settings : Settings)
    (config : Config) : Promise unit :=
  let platformPath := path_join env [outputdirectory settings; path config] in
  emit (EvEnsureDir platformPath) ;;
  match fs_ensureDir env platformPath with
  | Some err => reject err
  | None =>
      mapSeries (definitions config)
        (fun def =>
           if String.eqb (type config) "icon" then transformIcon imageObj platformPath def
           else if String.eqb (type config) "splash" then transformSplash imageObj platformPath def
           else resolve tt) ;;
      display.success ("Generated " ++ type config ++ " files for " ++ platform config)
  end.

(** The two nested [forEach] of [generate]; a selected platform that
    the registry does not have makes [PLATFORMS[platform].definitions]
    a [TypeError]. *)
Fixpoint collect_configs (selected : list string) : option (list Config) :=
  match selected with
  | [] => Some []
  | platform :: r =>
      match get PLATFORMS platform, collect_configs r with
      | Some defs, Some configs => Some (map (require env) defs ++ configs)%list
      | _, _ => None
      end
  end.

Definition generate (imageObj : option ImageObjects) (settings : Settings) : Promise unit :=
  display.header "Generating files" ;;
  fun w =>
    match collect_configs (g_selectedPlatforms w) with
    | None => reject (LibError "TypeError") w
    | Some configs =>
        (mapSeries configs (fun config => generateForConfig imageObj settings config) ;;
         resolve tt) w
    end.

(** [if (err) console.log('Error: ', err)]: the empty string is falsy. *)
Definition catchErrors (err : Reason) : Promise unit :=
  match err with
  | Thrown "" => resolve tt
  | _ => emit (EvConsoleError err)
  end.

(** ** Settings and entry point *)

(** The options of the command line as commander hands them over; the
    three path options are strings when they are given. *)
Record Program : Type := mkProgram {
  prog_icon : option string;
  prog_splash : option string;
  prog_platforms : JsValue;
  prog_outputdir : option string
}.

(** [opt || dflt] for an optional string. *)
Definition or_default (opt : option string) (dflt : string) : string :=
  match opt with
  | Some s => if truthy (JsString s) then s else dflt
  | None => dflt
  end.

Definition g_settings (program : Program) : Settings :=
  {| iconfile := or_default (prog_icon program) (path_join env ["."; "resources"; "icon.png"]);
     splashfile := or_default (prog_splash program) (path_join env ["."; "resources"; "splash.png"]);
     platforms := Js.or (prog_platforms program) JsUndefined;
     outputdirectory := or_default (prog_outputdir program) (path_join env ["."; "resources"]) |}.

(** The entry point: the banner, then
    [check(g_settings).then(() => generate(g_imageObjects, g_settings)).catch(catchErrors)] *)
Definition main (program : Program) : Promise unit :=
  emit (EvConsoleLog "") ;;
  emit (EvConsoleLog ("cordova-res-generator " ++ pjson_version env)) ;;
  catch_
    (check (g_settings program) ;;
     fun w => generate (g_imageObjects w) (g_settings program) w)
    catchErrors.

End Pipeline.

(** * Vocabulary of the properties *)

(** The test of the [forEach] of [checkPlatforms]. *)
Definition known (p : string) : bool :=
  found_truthy (Js.find (keys PLATFORMS) (fun k => String.eqb p k)).

(** The calls to the outside, as opposed to the lines on the console. *)
Definition is_call (e : Event) : bool :=
  match e with
  | EvDisplay _ _ | EvConsoleLog _ | EvConsoleError _ => false
  | _ => true
  end.

(** The calls to the outside made between the world [w] and the later
    world [w']. *)
Definition calls_since (w w' : World) : list Event :=
  List.filter is_call (drop (length (trace w)) (trace w')).

(** How a promise settled, without its value. *)
Definition status {A} (s : Settled A) : Settled unit :=
  match s with
  | Fulfilled _ => Fulfilled tt
  | Rejected r => Rejected r
  | Uncaught r => Uncaught r
  end.

(** Checks in sequence, as the specification words it: each check is given
    by how it settles and the calls it makes; the checks run in order and
    the first one that does not succeed ends the sequence. *)
Fixpoint first_failure (checks : list (Settled unit * list Event))
  : Settled unit * list Event :=
  match checks with
  | [] => (Fulfilled tt, [])
  | (Fulfilled _, calls) :: rest =>
      let '(s, calls') := first_failure rest in (s, (calls ++ calls')%list)
  | (s, calls) :: _ => (s, calls)
  end.

(** What a promise run in the world [w] shows to an observer: how it
    settles and the calls it makes. *)
Definition observe {A} (p : Promise A) (w : World) : Settled unit * list Event :=
  (status (fst (p w)), calls_since w (snd (p w))).

(** The files that the [write] calls among the events name, in order. *)
Fixpoint write_targets (evs : list Event) : list string :=
  match evs with
  | [] => []
  | EvWrite file _ _ :: r => file :: write_targets r
  | _ :: r => write_targets r
  end.

(** The files that were written: the targets of the [write] calls that
    reported no error. *)
Fixpoint written_files (evs : list Event) : list string :=
  match evs with
  | [] => []
  | EvWrite file _ None :: r => file :: written_files r
  | _ :: r => written_files r
  end.

(** A promise that changes the world by appending objects and events
    only, and that does not fulfil without a [write] to [target]. *)
Definition writes_to {A} (p : Promise A) (target : string) : Prop :=
  forall w, exists bs evs s,
    p w = (s, add_objects bs (add_events evs w))
    /\ (write_targets evs = [target]
        \/ (write_targets evs = [] /\ forall a, s <> Fulfilled a)).

(** ** Sample inputs *)

Definition sample_icons : Config :=
  {| platform := "android"; type := "icon"; path := "android/icon";
     definitions := [ mkDefinition "ldpi.png" 36 0 0;
                      mkDefinition "mdpi.png" 48 0 0;
                      mkDefinition "hdpi.png" 72 0 0 ] |}.

Definition sample_splashes : Config :=
  {| platform := "android"; type := "splash"; path := "android/splash";
     definitions := [ mkDefinition "port.png" 0 1125 2436 ] |}.

(** An environment with the files [icon.png] and [splash.png], in which
    every transformation succeeds and every file but [unwritable] can be
    written. *)
Definition sample_env (icon_bitmap splash_bitmap : Bitmap) (unwritable : string) : Env :=
  {| jimp_read := fun file =>
       if String.eqb file "icon.png" then inr icon_bitmap
       else if String.eqb file "splash.png" then inr splash_bitmap
       else inl (LibError "ENOENT");
     jimp_resize := fun _ w h => inr (mkBitmap w h []);
     jimp_crop := fun _ _ _ w h => inr (mkBitmap w h []);
     jimp_write := fun file _ =>
       if String.eqb file unwritable then Some (LibError "EACCES") else None;
     fs_pathExists := fun _ => true;
     fs_ensureDir := fun _ => None;
     path_join := String.concat "/";
     require := fun file =>
       if String.eqb file "./platforms/icons/android" then sample_icons
       else if String.eqb file "./platforms/splash/android" then sample_splashes
       else mkConfig "other" "icon" "other" [];
     pjson_version := "1.0.0" |}.

Definition sample_settings (filter : JsValue) : Settings :=
  {| iconfile := "icon.png"; splashfile := "splash.png";
     platforms := filter; outputdirectory := "out" |}.

Definition sample_program (filter : JsValue) : Program :=
  {| prog_icon := Some "icon.png"; prog_splash := Some "splash.png";
     prog_platforms := filter; prog_outputdir := Some "out" |}.

(** The world after the validation of a 1024x1024 icon and a 2732x2732
    splash image, with android selected. *)
Definition sample_validated : World :=
  {| heap := [mkBitmap 1024 1024 []; mkBitmap 2732 2732 []];
     trace := [];
     g_selectedPlatforms := ["android"];
     g_imageObjects := Some {| icon := 0; splash := 1 |} |}.

(** ** Vocabulary of the further properties *)

(** The calls that generation makes: on directories and on images. *)
Definition is_generation (e : Event) : bool :=
  match e with
  | EvEnsureDir _ | EvResize _ _ | EvCrop _ _ _ _ | EvWrite _ _ _ => true
  | _ => false
  end.


(** The files with their contents that were written without an error. *)
Fixpoint written (evs : list Event) : list (string * Bitmap) :=
  match evs with
  | [] => []
  | EvWrite file b None :: r => (file, b) :: written r
  | _ :: r => written r
  end.

(** The directory of a definition set and the file of a definition. *)
Definition platform_path (env : Env) (settings : Settings) (config : Config) : string :=
  path_join env [outputdirectory settings; path config].

Definition output_file (env : Env) (settings : Settings) (config : Config)
    (d : Definition_) : string :=
  path_join env [platform_path env settings config; name d].

(** The files a definition set stands for: one per definition when its
    type is [icon] or [splash], none for another type. *)
Definition output_files (env : Env) (settings : Settings) (config : Config) : list string :=
  if String.eqb (type config) "icon" || String.eqb (type config) "splash"
  then map (output_file env settings config) (definitions config)
  else [].

(** Collaborators that never fail: every directory can be made, every
    transformation succeeds, every file can be written. *)
Definition reliable (env : Env) : Prop :=
  (forall dir, fs_ensureDir env dir = None)
  /\ (forall b w h, exists b', jimp_resize env b w h = inr b')
  /\ (forall b x y w h, exists b', jimp_crop env b x y w h = inr b')
  /\ (forall file b, jimp_write env file b = None).

(** The sample environment with every file writable. *)
Definition reliable_env : Env :=
  {| jimp_read := jimp_read (sample_env (mkBitmap 1024 1024 []) (mkBitmap 2732 2732 []) "");
     jimp_resize := fun _ w h => inr (mkBitmap w h []);
     jimp_crop := fun _ _ _ w h => inr (mkBitmap w h []);
     jimp_write := fun _ _ => None;
     fs_pathExists := fun _ => true;
     fs_ensureDir := fun _ => None;
     path_join := String.concat "/";
     require := require (sample_env (mkBitmap 1024 1024 []) (mkBitmap 2732 2732 []) "");
     pjson_version := "1.0.0" |}.

(** The callback that [generateForConfig] hands to [Q.mapSeries]: the
    [switch] on the type of the definition set. *)
Definition transform (env : Env) (imageObj : option ImageObjects) (platformPath : string)
    (config : Config) (def : Definition_) : Promise unit :=
  if String.eqb (type config) "icon" then transformIcon env imageObj platformPath def
  else if String.eqb (type config) "splash" then transformSplash env imageObj platformPath def
  else resolve tt.

(** The two source images are in the heap, under the references [o]. *)
Definition sources_loaded (o : ImageObjects) (bi bs : Bitmap) (w : World) : Prop :=
  heap w !! icon o = Some bi /\ heap w !! splash o = Some bs.



(** * Properties *)

(** ** Platform selection *)

Lemma known_spec (p : string) : known p = true <-> p ∈ keys PLATFORMS.
Proof.
  unfold known. cbn [keys PLATFORMS map fst Js.find].
  split.
  - repeat match goal with
           | |- context [String.eqb p ?k] =>
               destruct (String.eqb_spec p k) as [-> | _];
               [intros _; repeat constructor |]
           end.
    cbn. discriminate.
  - intros Hin.
    repeat (apply elem_of_cons in Hin as [-> | Hin]; [reflexivity |]).
    inversion Hin.
Qed.

Lemma partition_platforms_filter (toks : list string) :
  partition_platforms (keys PLATFORMS) toks
  = (List.filter known toks, List.filter (fun t => negb (known t)) toks).
Proof.
  induction toks as [| t toks IH]; [reflexivity |].
  cbn [partition_platforms List.filter]. rewrite IH.
  fold (known t). destruct (known t); reflexivity.
Qed.

Lemma filter_all_known (toks : list string) :
  Forall (fun t => t ∈ keys PLATFORMS) toks ->
  List.filter known toks = toks /\ List.filter (fun t => negb (known t)) toks = [].
Proof.
  induction 1 as [| t toks Ht _ [IH1 IH2]]; [split; reflexivity |].
  apply known_spec in Ht. cbn [List.filter]. rewrite Ht. cbn [negb].
  rewrite IH1, IH2. split; reflexivity.
Qed.

Lemma filter_some_unknown (toks : list string) :
  Exists (fun t => t ∉ keys PLATFORMS) toks ->
  List.filter (fun t => negb (known t)) toks <> [].
Proof.
  induction 1 as [t toks Ht | t toks _ IH]; cbn [List.filter].
  - destruct (known t) eqn:E; [| discriminate].
    apply known_spec in E. contradiction.
  - destruct (negb (known t)); [discriminate | exact IH].
Qed.

(** What [checkPlatforms] does with a string that is not empty. *)
Lemma checkPlatforms_filter (settings : Settings) (s : string) (w : World) :
  platforms settings = JsString s -> s <> "" ->
  checkPlatforms settings w =
    let unknown := List.filter (fun t => negb (known t)) (split "," s) in
    match unknown with
    | [] =>
        (Fulfilled (List.filter known (split "," s)),
         add_events [EvDisplay Success
                       ("Processing files for: "
                        ++ array_to_string (List.filter known (split "," s)))] w)
    | _ :: _ =>
        (Rejected (Thrown ("Bad platforms: " ++ array_to_string unknown)),
         add_events [EvDisplay Error ("Bad platforms: " ++ array_to_string unknown)] w)
    end.
Proof.
  intros Hp Hs. unfold checkPlatforms. rewrite Hp.
  cbn [truthy is_string as_string negb orb].
  destruct (String.eqb_spec s "") as [-> | _]; [contradiction |].
  cbn [negb]. rewrite partition_platforms_filter.
  destruct (List.filter (fun t => negb (known t)) (split "," s)); reflexivity.
Qed.

(** What [checkPlatforms] does without a usable filter. *)
Lemma checkPlatforms_all (settings : Settings) (w : World) :
  truthy (platforms settings) = false \/ is_string (platforms settings) = false ->
  checkPlatforms settings w =
    (Fulfilled ["android"; "ios"; "windows"; "blackberry10"],
     add_events [EvDisplay Success "Processing files for all platforms"] w).
Proof.
  intros H. unfold checkPlatforms.
  destruct H as [-> | ->]; [reflexivity |].
  rewrite orb_true_r. reflexivity.
Qed.

(** C4: a filter whose comma separated tokens are all keys of the registry
    is accepted, and the selection is the list of its tokens as the user
    wrote them: in that order, repetitions kept. *)
Theorem selection_is_the_token_list (settings : Settings) (s : string) (w : World) :
  platforms settings = JsString s ->
  Forall (fun t => t ∈ keys PLATFORMS) (split "," s) ->
  fst (checkPlatforms settings w) = Fulfilled (split "," s).
Proof.
  intros Hp Hall.
  assert (Hs : s <> "").
  { intros ->. inversion Hall as [| ? ? Hin _]. apply known_spec in Hin. discriminate. }
  rewrite (checkPlatforms_filter settings s w Hp Hs).
  destruct (filter_all_known _ Hall) as [-> ->]. reflexivity.
Qed.

Lemma selection_is_the_token_list_witness :
  Forall (fun t => t ∈ keys PLATFORMS) (split "," "ios,android,ios")
  /\ fst (checkPlatforms (mkSettings "i.png" "s.png" (JsString "ios,android,ios") "out") initial)
     = Fulfilled ["ios"; "android"; "ios"].
Proof.
  assert (H : Forall (fun t => t ∈ keys PLATFORMS) (split "," "ios,android,ios")).
  { repeat constructor. }
  split; [exact H |].
  exact (selection_is_the_token_list
           (mkSettings "i.png" "s.png" (JsString "ios,android,ios") "out")
           "ios,android,ios" initial eq_refl H).
Defined.

(** C6: without a filter all keys of the registry are selected, in the
    order of the registry: android, ios, windows, blackberry10; no filter
    on the command line is no filter in the settings. *)
Theorem no_filter_selects_all (env : Env) (iconfile splashfile outputdirectory : string)
    (icon_opt splash_opt outputdir_opt : option string) (w : World) :
  fst (checkPlatforms (mkSettings iconfile splashfile JsUndefined outputdirectory) w)
  = Fulfilled ["android"; "ios"; "windows"; "blackberry10"]
  /\ keys PLATFORMS = ["android"; "ios"; "windows"; "blackberry10"]
  /\ platforms (g_settings env (mkProgram icon_opt splash_opt JsUndefined outputdir_opt))
     = JsUndefined.
Proof. repeat split. Qed.

(** C10: the empty string, and every value that is not a string, selects
    what no filter selects: all keys of the registry. *)
Theorem empty_or_non_string_filter_selects_all (settings : Settings) (w : World) :
  platforms settings = JsString "" \/ is_string (platforms settings) = false ->
  fst (checkPlatforms settings w) = Fulfilled ["android"; "ios"; "windows"; "blackberry10"]
  /\ checkPlatforms settings w
     = checkPlatforms (mkSettings (iconfile settings) (splashfile settings) JsUndefined
                         (outputdirectory settings)) w.
Proof.
  intros H.
  assert (H' : truthy (platforms settings) = false \/ is_string (platforms settings) = false).
  { destruct H as [-> | H]; [left; reflexivity | right; exact H]. }
  rewrite (checkPlatforms_all settings w H').
  split; reflexivity.
Qed.

Lemma empty_or_non_string_filter_selects_all_witness :
  fst (checkPlatforms (mkSettings "i.png" "s.png" (JsString "") "out") initial)
  = Fulfilled ["android"; "ios"; "windows"; "blackberry10"]
  /\ fst (checkPlatforms (mkSettings "i.png" "s.png" (JsBool true) "out") initial)
     = Fulfilled ["android"; "ios"; "windows"; "blackberry10"].
Proof.
  split.
  - exact (proj1 (empty_or_non_string_filter_selects_all
                    (mkSettings "i.png" "s.png" (JsString "") "out") initial
                    (or_introl eq_refl))).
  - exact (proj1 (empty_or_non_string_filter_selects_all
                    (mkSettings "i.png" "s.png" (JsBool true) "out") initial
                    (or_intror eq_refl))).
Defined.

(** ** Running promises *)

Lemma lookup_snoc {A} (l : list A) (x : A) : (l ++ [x])%list !! length l = Some x.
Proof. apply list_lookup_middle. reflexivity. Qed.

Lemma insert_snoc {A} (l : list A) (x y : A) :
  <[length l := y]> (l ++ [x])%list = (l ++ [y])%list.
Proof.
  rewrite insert_app_r_alt by lia.
  replace (length l - length l)%nat with 0%nat by lia. reflexivity.
Qed.

Lemma world_eq (w w' : World) :
  heap w = heap w' -> trace w = trace w' ->
  g_selectedPlatforms w = g_selectedPlatforms w' ->
  g_imageObjects w = g_imageObjects w' -> w = w'.
Proof. destruct w, w'; cbn; intros; subst; reflexivity. Qed.

Lemma set_object_add_events (r : nat) (b : Bitmap) (evs : list Event) (w : World) :
  set_object r b (add_events evs w) = add_events evs (set_object r b w).
Proof. reflexivity. Qed.

Lemma set_object_new (b b' : Bitmap) (w : World) :
  set_object (length (heap w)) b' (add_objects [b] w) = add_objects [b'] w.
Proof. apply world_eq; cbn; try reflexivity. apply insert_snoc. Qed.

Lemma add_events_nil (w : World) : add_events [] w = w.
Proof. apply world_eq; cbn; try reflexivity. apply app_nil_r. Qed.

Lemma add_objects_nil (w : World) : add_objects [] w = w.
Proof. apply world_eq; cbn; try reflexivity. apply app_nil_r. Qed.

Lemma then_emit {B} (e : Event) (k : unit -> Promise B) (w : World) :
  then_ (emit e) k w = k tt (add_events [e] w).
Proof. reflexivity. Qed.

Lemma then_resolve {A B} (a : A) (k : A -> Promise B) (w : World) :
  then_ (resolve a) k w = k a w.
Proof. reflexivity. Qed.

Lemma then_reject {A B} (r : Reason) (k : A -> Promise B) (w : World) :
  then_ (reject r) k w = (Rejected r, w).
Proof. reflexivity. Qed.

Lemma then_then {A B C} (p : Promise A) (k : A -> Promise B) (k' : B -> Promise C) (w : World) :
  then_ (then_ p k) k' w = then_ p (fun a => then_ (k a) k') w.
Proof. unfold then_. destruct (p w) as [[a | r | r] w']; reflexivity. Qed.

Lemma then_alloc {B} (b : Bitmap) (k : nat -> Promise B) (w : World) :
  then_ (alloc b) k w = k (length (heap w)) (add_objects [b] w).
Proof. reflexivity. Qed.

Lemma then_store {B} (r : nat) (b : Bitmap) (k : unit -> Promise B) (w : World) :
  then_ (store r b) k w = k tt (set_object r b w).
Proof. reflexivity. Qed.

Lemma then_deref_some {B} (r : nat) (b : Bitmap) (k : Bitmap -> Promise B) (w : World) :
  heap w !! r = Some b -> then_ (deref r) k w = k b w.
Proof. intros H. unfold then_, deref. rewrite H. reflexivity. Qed.

Lemma then_deref_none {B} (r : nat) (k : Bitmap -> Promise B) (w : World) :
  heap w !! r = None -> then_ (deref r) k w = (Rejected (LibError "TypeError"), w).
Proof. intros H. unfold then_, deref. rewrite H. reflexivity. Qed.

Lemma outcome_eq {A} (s s' : Settled A) (w w' : World) :
  s = s' -> w = w' -> (s, w) = (s', w').
Proof. intros -> ->. reflexivity. Qed.

(** Two worlds are equal when their components are, up to the bracketing
    of the appended events and objects. *)
Ltac same_world :=
  apply world_eq;
  cbn [heap trace g_selectedPlatforms g_imageObjects add_events add_objects set_object];
  rewrite <- ?app_assoc; try reflexivity.

Ltac same_outcome := apply outcome_eq; [try reflexivity | same_world].

(** One step of a chain of [then]. *)
Ltac run :=
  unfold display.success, display.error, display.header, display.info;
  rewrite ?then_then, ?then_emit, ?then_resolve, ?then_reject, ?then_alloc, ?then_store;
  cbv beta.

Section Validation.

Variable env : Env.

Lemma Jimp_read_eq (file : string) (w : World) :
  Jimp_read env file w =
    match jimp_read env file with
    | inr b => (Fulfilled (length (heap w)), add_objects [b] (add_events [EvJimpRead file] w))
    | inl err => (Rejected err, add_events [EvJimpRead file] w)
    end.
Proof.
  unfold Jimp_read. rewrite then_emit.
  destruct (jimp_read env file); reflexivity.
Qed.

(** The outcome of the icon check. *)
Lemma checkIconFile_eq (settings : Settings) (arg : JsValue) (w : World) :
  checkIconFile env settings arg w =
    let file := iconfile settings in
    match jimp_read env file with
    | inr b =>
        if (width b =? 1024) && (width b =? height b) then
          (Fulfilled (length (heap w)),
           add_objects [b]
             (add_events [EvJimpRead file;
                          EvDisplay Success ("Icon file ok " ++ dimensions (width b) (height b))] w))
        else
          (Rejected (Thrown "Bad image format"),
           add_objects [b]
             (add_events [EvJimpRead file;
                          EvDisplay Error ("Bad icon file " ++ dimensions (width b) (height b))] w))
    | inl err =>
        (Rejected err,
         add_events [EvJimpRead file; EvDisplay Error "Could not load icon file"] w)
    end.
Proof.
  unfold checkIconFile, defer_promise, catch_.
  unfold then_ at 1. rewrite Jimp_read_eq.
  destruct (jimp_read env (iconfile settings)) as [err | b].
  - run. same_outcome.
  - rewrite (then_deref_some _ b) by apply lookup_snoc.
    cbv zeta. destruct ((width b =? 1024) && (width b =? height b));
      run; same_outcome.
Qed.

(** The outcome of the splash check. *)
Lemma checkSplashFile_eq (settings : Settings) (arg : JsValue) (w : World) :
  checkSplashFile env settings arg w =
    let file := splashfile settings in
    match jimp_read env file with
    | inr b =>
        if (width b =? 2732) && (width b =? height b) then
          (Fulfilled (length (heap w)),
           add_objects [b]
             (add_events [EvJimpRead file;
                          EvDisplay Success ("Splash file ok " ++ dimensions (width b) (height b))] w))
        else
          (Rejected (Thrown "Bad image format"),
           add_objects [b]
             (add_events [EvJimpRead file;
                          EvDisplay Error ("Bad splash file " ++ dimensions (width b) (height b))] w))
    | inl err =>
        (Rejected err,
         add_events [EvJimpRead file; EvDisplay Error "Could not load splash file"] w)
    end.
Proof.
  unfold checkSplashFile, defer_promise, catch_.
  unfold then_ at 1. rewrite Jimp_read_eq.
  destruct (jimp_read env (splashfile settings)) as [err | b].
  - run. same_outcome.
  - rewrite (then_deref_some _ b) by apply lookup_snoc.
    cbv zeta. destruct ((width b =? 2732) && (width b =? height b));
      run; same_outcome.
Qed.

Lemma square_test (n w h : Z) : (w =? n) && (w =? h) = true <-> w = n /\ h = n.
Proof. rewrite andb_true_iff, !Z.eqb_eq. intuition congruence. Qed.

Lemma checkPlatforms_effect (settings : Settings) :
  exists (s : Settled (list string)) (lvl : Level) (msg : string),
    (forall r, s <> Uncaught r) /\
    forall w, checkPlatforms settings w = (s, add_events [EvDisplay lvl msg] w).
Proof.
  unfold checkPlatforms.
  destruct (negb (truthy (platforms settings)) || negb (is_string (platforms settings))).
  - eexists _, _, _. split; [| intros w; reflexivity]. discriminate.
  - destruct (partition_platforms _ _) as [toProcess unknown].
    destruct (0 <? Z.of_nat (length unknown));
      (eexists _, _, _; split; [| intros w; reflexivity]); discriminate.
Qed.

Lemma checkOutPutDir_eq (settings : Settings) (w : World) :
  checkOutPutDir env settings w =
    let dir := outputdirectory settings in
    if fs_pathExists env dir then
      (Fulfilled tt,
       add_events [EvPathExists dir;
                   EvDisplay Success ("Output directory ok (" ++ dir ++ ")")] w)
    else
      (Rejected (Thrown ("Output directory not found: " ++ dir)),
       add_events [EvPathExists dir;
                   EvDisplay Error ("Output directory not found (" ++ dir ++ ")")] w).
Proof.
  unfold checkOutPutDir. cbv zeta. run.
  destruct (fs_pathExists env (outputdirectory settings)); run; same_outcome.
Qed.

Lemma calls_since_events (w w' : World) (evs : list Event) :
  trace w' = (trace w ++ evs)%list -> calls_since w w' = List.filter is_call evs.
Proof. intros H. unfold calls_since. rewrite H, drop_app_length. reflexivity. Qed.

End Validation.

Lemma passes_iff (n wd ht : Z) (w_ok w_bad : World) (image : nat) (r : Reason) :
  (exists i, fst (if (wd =? n) && (wd =? ht)
                  then (Fulfilled image, w_ok) else (Rejected r, w_bad)) = Fulfilled i)
  <-> wd = n /\ ht = n.
Proof.
  rewrite <- square_test.
  destruct ((wd =? n) && (wd =? ht)); cbn [fst]; split.
  - reflexivity.
  - intros _. exists image. reflexivity.
  - intros [i Hi]. discriminate Hi.
  - discriminate.
Qed.

Lemma fails_otherwise (n wd ht : Z) (w_ok w_bad : World) (image : nat) (r : Reason) :
  ~ (wd = n /\ ht = n) ->
  fst (if (wd =? n) && (wd =? ht)
       then (Fulfilled image, w_ok) else (Rejected r, w_bad)) = Rejected r.
Proof.
  rewrite <- square_test.
  destruct ((wd =? n) && (wd =? ht)); cbn [fst]; [| reflexivity].
  intros H. exfalso. apply H. reflexivity.
Qed.

(** C1: a decoded icon passes the check exactly when its width and its
    height are both 1024, and is rejected as a bad image format otherwise,
    whatever becomes of the splash file; a decoded splash image passes
    exactly when both are 2732, whatever becomes of the icon file. *)
Theorem dimension_checks (env : Env) (settings : Settings) (arg_i arg_s : JsValue)
    (w : World) :
  (forall bi, jimp_read env (iconfile settings) = inr bi ->
     ((exists image, fst (checkIconFile env settings arg_i w) = Fulfilled image)
        <-> width bi = 1024 /\ height bi = 1024)
     /\ (~ (width bi = 1024 /\ height bi = 1024) ->
         fst (checkIconFile env settings arg_i w) = Rejected (Thrown "Bad image format")))
  /\ (forall bs, jimp_read env (splashfile settings) = inr bs ->
        ((exists image, fst (checkSplashFile env settings arg_s w) = Fulfilled image)
           <-> width bs = 2732 /\ height bs = 2732)
        /\ (~ (width bs = 2732 /\ height bs = 2732) ->
            fst (checkSplashFile env settings arg_s w)
            = Rejected (Thrown "Bad image format"))).
Proof.
  split.
  - intros bi Hi. rewrite checkIconFile_eq. cbv zeta. rewrite Hi.
    split; [apply (passes_iff 1024) | apply (fails_otherwise 1024)].
  - intros bs Hs. rewrite checkSplashFile_eq. cbv zeta. rewrite Hs.
    split; [apply (passes_iff 2732) | apply (fails_otherwise 2732)].
Qed.

Lemma dimension_checks_witness :
  jimp_read (sample_env (mkBitmap 1024 1023 []) (mkBitmap 2732 2732 []) "") "missing.png"
  = inl (LibError "ENOENT")
  /\ fst (checkIconFile (sample_env (mkBitmap 1024 1023 []) (mkBitmap 2732 2732 []) "")
            (mkSettings "icon.png" "missing.png" JsUndefined "out") JsUndefined initial)
     = Rejected (Thrown "Bad image format")
  /\ exists image,
       fst (checkSplashFile (sample_env (mkBitmap 1024 1023 []) (mkBitmap 2732 2732 []) "")
              (mkSettings "missing.png" "splash.png" JsUndefined "out") JsUndefined initial)
       = Fulfilled image.
Proof.
  split; [reflexivity | split].
  - destruct (proj1 (dimension_checks
                       (sample_env (mkBitmap 1024 1023 []) (mkBitmap 2732 2732 []) "")
                       (mkSettings "icon.png" "missing.png" JsUndefined "out")
                       JsUndefined JsUndefined initial)
                (mkBitmap 1024 1023 []) eq_refl) as [_ Hicon].
    apply Hicon. intros [_ H]. discriminate H.
  - destruct (proj2 (dimension_checks
                       (sample_env (mkBitmap 1024 1023 []) (mkBitmap 2732 2732 []) "")
                       (mkSettings "missing.png" "splash.png" JsUndefined "out")
                       JsUndefined JsUndefined initial)
                (mkBitmap 2732 2732 []) eq_refl) as [Hsplash _].
    apply Hsplash. split; reflexivity.
Defined.

Ltac observed :=
  unfold observe; cbn [fst snd status];
  repeat (erewrite calls_since_events
            by (cbn [trace add_events add_objects set_object];
                rewrite <- ?app_assoc; reflexivity));
  cbn [List.filter is_call first_failure app].

Lemma then_fulfilled {A B} (p : Promise A) (k : A -> Promise B) (w w' : World) (a : A) :
  p w = (Fulfilled a, w') -> then_ p k w = k a w'.
Proof. intros H. unfold then_. rewrite H. reflexivity. Qed.

Lemma then_rejected {A B} (p : Promise A) (k : A -> Promise B) (w w' : World) (r : Reason) :
  p w = (Rejected r, w') -> then_ p k w = (Rejected r, w').
Proof. intros H. unfold then_. rewrite H. reflexivity. Qed.

Section Sequence.
Variable env : Env.

Lemma set_selectedPlatforms_then {B} (l : list string) (k : unit -> Promise B) (w : World) :
  then_ (set_selectedPlatforms l) k w
  = k tt (mkWorld (heap w) (trace w) l (g_imageObjects w)).
Proof. reflexivity. Qed.

Lemma set_imageObjects_then {B} (o : ImageObjects) (k : unit -> Promise B) (w : World) :
  then_ (set_imageObjects o) k w
  = k tt (mkWorld (heap w) (trace w) (g_selectedPlatforms w) (Some o)).
Proof. reflexivity. Qed.

Lemma checkIconFile_effect (settings : Settings) (arg : JsValue) :
  exists (evs : list Event) (bs : list Bitmap),
    List.filter is_call evs = [EvJimpRead (iconfile settings)] /\
    ((forall w, checkIconFile env settings arg w
                = (Fulfilled (length (heap w)), add_objects bs (add_events evs w)))
     \/ exists r, forall w, checkIconFile env settings arg w
                           = (Rejected r, add_objects bs (add_events evs w))).
Proof.
  destruct (jimp_read env (iconfile settings)) as [err | b] eqn:E;
    [| destruct ((width b =? 1024) && (width b =? height b)) eqn:T ].
  - eexists _, []. split; [| right; exists err; intros w;
                               rewrite checkIconFile_eq; cbv zeta; rewrite E, add_objects_nil; reflexivity].
    reflexivity.
  - eexists _, _. split; [| left; intros w;
                            rewrite checkIconFile_eq; cbv zeta; rewrite E, T; reflexivity].
    reflexivity.
  - eexists _, _. split; [| right; eexists; intros w;
                            rewrite checkIconFile_eq; cbv zeta; rewrite E, T; reflexivity].
    reflexivity.
Qed.

Lemma checkSplashFile_effect (settings : Settings) (arg : JsValue) :
  exists (evs : list Event) (bs : list Bitmap),
    List.filter is_call evs = [EvJimpRead (splashfile settings)] /\
    ((forall w, checkSplashFile env settings arg w
                = (Fulfilled (length (heap w)), add_objects bs (add_events evs w)))
     \/ exists r, forall w, checkSplashFile env settings arg w
                           = (Rejected r, add_objects bs (add_events evs w))).
Proof.
  destruct (jimp_read env (splashfile settings)) as [err | b] eqn:E;
    [| destruct ((width b =? 2732) && (width b =? height b)) eqn:T ].
  - eexists _, []. split; [| right; exists err; intros w;
                               rewrite checkSplashFile_eq; cbv zeta; rewrite E, add_objects_nil; reflexivity].
    reflexivity.
  - eexists _, _. split; [| left; intros w;
                            rewrite checkSplashFile_eq; cbv zeta; rewrite E, T; reflexivity].
    reflexivity.
  - eexists _, _. split; [| right; eexists; intros w;
                            rewrite checkSplashFile_eq; cbv zeta; rewrite E, T; reflexivity].
    reflexivity.
Qed.

Lemma checkOutPutDir_effect (settings : Settings) :
  exists (evs : list Event) (s : Settled unit),
    List.filter is_call evs = [EvPathExists (outputdirectory settings)] /\
    forall w, checkOutPutDir env settings w = (s, add_events evs w).
Proof.
  destruct (fs_pathExists env (outputdirectory settings)) eqn:E;
    (eexists _, _; split;
     [| intros w; rewrite checkOutPutDir_eq; cbv zeta; rewrite E; reflexivity]);
    reflexivity.
Qed.

(** C7: validation runs the platform selection, the icon check, the splash
    check and the check of the output directory in this order, and ends
    with the first of them that does not succeed: what [check] shows is
    what the sequence of the four shows up to the first failure.  The icon
    check reads the icon file and nothing else, the splash check the
    splash file, so a failing icon check leaves the splash file unread. *)
Theorem checks_run_in_sequence (settings : Settings) (w : World) :
  observe (check env settings) w =
  first_failure
    [ observe (checkPlatforms settings) w;
      observe (checkIconFile env settings (JsString (iconfile settings))) w;
      observe (checkSplashFile env settings JsUndefined) w;
      observe (checkOutPutDir env settings) w ]
  /\ snd (observe (checkPlatforms settings) w) = []
  /\ snd (observe (checkIconFile env settings (JsString (iconfile settings))) w)
     = [EvJimpRead (iconfile settings)]
  /\ snd (observe (checkSplashFile env settings JsUndefined) w)
     = [EvJimpRead (splashfile settings)]
  /\ snd (observe (checkOutPutDir env settings) w)
     = [EvPathExists (outputdirectory settings)].
Proof.
  destruct (checkPlatforms_effect settings) as (s & lvl & msg & Hnu & Hp).
  destruct (checkIconFile_effect settings (JsString (iconfile settings)))
    as (evs_i & bs_i & Hci & Hi).
  destruct (checkSplashFile_effect settings JsUndefined) as (evs_s & bs_s & Hcs & Hs).
  destruct (checkOutPutDir_effect settings) as (evs_d & sd & Hcd & Hd).
  split.
  2:{ unfold observe. cbn [snd]. rewrite Hp, Hd.
      destruct Hi as [Hi | [ri Hi]]; destruct Hs as [Hs | [rs Hs]];
        rewrite Hi, Hs; observed; rewrite Hci, Hcs, Hcd; repeat split. }
  unfold observe. unfold check. run.
  destruct s as [sel | r | r]; [| | destruct (Hnu r); reflexivity ].
  2:{ rewrite (then_rejected _ _ _ _ _ (Hp _)), Hp. observed. reflexivity. }
  rewrite (then_fulfilled _ _ _ _ _ (Hp _)), Hp.
  rewrite set_selectedPlatforms_then.
  unfold getImages. rewrite then_then.
  destruct Hi as [Hi | [ri Hi]].
  2:{ rewrite (then_rejected _ _ _ _ _ (Hi _)), Hi. observed. reflexivity. }
  rewrite (then_fulfilled _ _ _ _ _ (Hi _)), Hi. run.
  destruct Hs as [Hs | [rs Hs]].
  2:{ rewrite (then_rejected _ _ _ _ _ (Hs _)), Hs. observed.
      rewrite ?List.filter_app, Hci. reflexivity. }
  rewrite (then_fulfilled _ _ _ _ _ (Hs _)), Hs. run.
  rewrite set_imageObjects_then, !Hd. observed.
  rewrite ?List.filter_app, Hci, Hcs.
  destruct sd; cbn [status app]; rewrite ?app_nil_r; reflexivity.
Qed.
End Sequence.

(** With an icon of 512x512 the run of [check] reads the icon file and
    makes no other call: the splash file is not read. *)
Example small_icon_skips_the_splash_check :
  observe (check (sample_env (mkBitmap 512 512 []) (mkBitmap 2732 2732 []) "")
             (sample_settings (JsString "android"))) initial
  = (Rejected (Thrown "Bad image format"), [EvJimpRead "icon.png"]).
Proof. reflexivity. Qed.

(** ** Generation *)

Section Generation.

Variable env : Env.

Lemma write_eq (image : nat) (file : string) (b : Bitmap) (w : World) :
  heap w !! image = Some b ->
  write env image file w =
    (match jimp_write env file b with
     | Some e => Uncaught e
     | None => Fulfilled tt
     end,
     add_events [EvWrite file b (jimp_write env file b)] w).
Proof.
  intros H. unfold write. rewrite (then_deref_some _ b) by exact H.
  unfold defer_promise. cbv zeta. run.
  destruct (jimp_write env file b); reflexivity.
Qed.

Lemma clone_eq (o : ImageObjects) (which : ImageObjects -> nat) (b : Bitmap) (w : World) :
  heap w !! which o = Some b ->
  clone (Some o) which w = (Fulfilled (length (heap w)), add_objects [b] w).
Proof.
  intros H. unfold clone. rewrite (then_deref_some _ b) by exact H. reflexivity.
Qed.

Lemma clone_fails (imageObj : option ImageObjects) (which : ImageObjects -> nat) (w : World) :
  match imageObj with Some o => heap w !! which o = None | None => True end ->
  clone imageObj which w = (Rejected (LibError "TypeError"), w).
Proof.
  intros H. unfold clone. destruct imageObj as [o |]; [| reflexivity].
  rewrite then_deref_none by exact H. reflexivity.
Qed.

(** What [transformIcon] does with an icon that is there. *)
Lemma transformIcon_eq (o : ImageObjects) (platformPath : string) (d : Definition_)
    (bi : Bitmap) (w : World) :
  heap w !! icon o = Some bi ->
  transformIcon env (Some o) platformPath d w =
    let file := path_join env [platformPath; name d] in
    match jimp_resize env bi (size d) (size d) with
    | inl err =>
        (Rejected err, add_objects [bi] (add_events [EvResize (size d) (size d)] w))
    | inr resized =>
        (match jimp_write env file resized with
         | Some e => Uncaught e
         | None => Fulfilled tt
         end,
         add_objects [resized]
           (add_events [EvResize (size d) (size d);
                        EvWrite file resized (jimp_write env file resized)] w))
    end.
Proof.
  intros H. unfold transformIcon.
  rewrite (then_fulfilled _ _ _ _ _ (clone_eq o icon bi w H)). cbv zeta.
  rewrite (then_deref_some _ bi) by apply lookup_snoc. run.
  destruct (jimp_resize env bi (size d) (size d)) as [err | resized].
  - same_outcome.
  - run. rewrite set_object_add_events, set_object_new.
    rewrite (write_eq _ _ resized) by apply lookup_snoc.
    same_outcome.
Qed.

(** What [transformSplash] does with a splash image that is there. *)
Lemma transformSplash_eq (o : ImageObjects) (platformPath : string) (d : Definition_)
    (bs : Bitmap) (w : World) :
  heap w !! splash o = Some bs ->
  transformSplash env (Some o) platformPath d w =
    let '(x, y, width, height) := cropRectangle bs d in
    let file := path_join env [platformPath; name d] in
    match jimp_crop env bs x y width height with
    | inl err =>
        (Rejected err, add_objects [bs] (add_events [EvCrop x y width height] w))
    | inr cropped =>
        (match jimp_write env file cropped with
         | Some e => Uncaught e
         | None => Fulfilled tt
         end,
         add_objects [cropped]
           (add_events [EvCrop x y width height;
                        EvWrite file cropped (jimp_write env file cropped)] w))
    end.
Proof.
  intros H. unfold transformSplash.
  rewrite (then_fulfilled _ _ _ _ _ (clone_eq o splash bs w H)).
  rewrite (then_deref_some _ bs) by apply lookup_snoc.
  destruct (cropRectangle bs d) as [[[x y] width] height]. cbv zeta. run.
  destruct (jimp_crop env bs x y width height) as [err | cropped].
  - same_outcome.
  - run. rewrite set_object_add_events, set_object_new.
    rewrite (write_eq _ _ cropped) by apply lookup_snoc.
    same_outcome.
Qed.

Lemma write_targets_app (e1 e2 : list Event) :
  write_targets (e1 ++ e2) = (write_targets e1 ++ write_targets e2)%list.
Proof.
  induction e1 as [| e e1 IH]; [reflexivity |].
  destruct e; cbn [write_targets app]; rewrite IH; reflexivity.
Qed.

Lemma then_uncaught {A B} (p : Promise A) (k : A -> Promise B) (w w' : World) (r : Reason) :
  p w = (Uncaught r, w') -> then_ p k w = (Uncaught r, w').
Proof. intros H. unfold then_. rewrite H. reflexivity. Qed.

Lemma unchanged (w : World) : w = add_objects [] (add_events [] w).
Proof. rewrite add_events_nil, add_objects_nil. reflexivity. Qed.

Lemma changed_twice (b1 b2 : list Bitmap) (e1 e2 : list Event) (w : World) :
  add_objects b2 (add_events e2 (add_objects b1 (add_events e1 w)))
  = add_objects (b1 ++ b2) (add_events (e1 ++ e2) w).
Proof. same_world. Qed.

Lemma transformIcon_effect (imageObj : option ImageObjects) (platformPath : string)
    (d : Definition_) :
  writes_to (transformIcon env imageObj platformPath d)
    (path_join env [platformPath; name d]).
Proof.
  intros w.
  destruct imageObj as [o |]; [destruct (heap w !! icon o) as [bi |] eqn:H |].
  - rewrite (transformIcon_eq o platformPath d bi w H). cbv zeta.
    destruct (jimp_resize env bi (size d) (size d)) as [err | resized];
      eexists _, _, _; (split; [reflexivity |]).
    + right. split; [reflexivity | discriminate].
    + left. reflexivity.
  - unfold transformIcon.
    rewrite (then_rejected _ _ _ _ _ (clone_fails (Some o) icon w H)).
    exists [], [], (Rejected (LibError "TypeError")).
    split; [f_equal; apply unchanged | right; split; [reflexivity | discriminate]].
  - unfold transformIcon.
    rewrite (then_rejected _ _ _ _ _ (clone_fails None icon w I)).
    exists [], [], (Rejected (LibError "TypeError")).
    split; [f_equal; apply unchanged | right; split; [reflexivity | discriminate]].
Qed.

Lemma transformSplash_effect (imageObj : option ImageObjects) (platformPath : string)
    (d : Definition_) :
  writes_to (transformSplash env imageObj platformPath d)
    (path_join env [platformPath; name d]).
Proof.
  intros w.
  destruct imageObj as [o |]; [destruct (heap w !! splash o) as [bs |] eqn:H |].
  - rewrite (transformSplash_eq o platformPath d bs w H).
    destruct (cropRectangle bs d) as [[[x y] width] height]. cbv zeta.
    destruct (jimp_crop env bs x y width height) as [err | cropped];
      eexists _, _, _; (split; [reflexivity |]).
    + right. split; [reflexivity | discriminate].
    + left. reflexivity.
  - unfold transformSplash.
    rewrite (then_rejected _ _ _ _ _ (clone_fails (Some o) splash w H)).
    exists [], [], (Rejected (LibError "TypeError")).
    split; [f_equal; apply unchanged | right; split; [reflexivity | discriminate]].
  - unfold transformSplash.
    rewrite (then_rejected _ _ _ _ _ (clone_fails None splash w I)).
    exists [], [], (Rejected (LibError "TypeError")).
    split; [f_equal; apply unchanged | right; split; [reflexivity | discriminate]].
Qed.

(** A series of steps that each write to their own target writes to the
    targets of the first [n] elements, in their order. *)
Lemma mapSeries_effect {A B} (f : A -> Promise B) (g : A -> string) :
  (forall x, writes_to (f x) (g x)) ->
  forall (l : list A) (w : World), exists bs evs s n,
    mapSeries l f w = (s, add_objects bs (add_events evs w))
    /\ write_targets evs = map g (take n l).
Proof.
  intros Hf. induction l as [| x l IH]; intros w.
  - exists [], [], (Fulfilled []), 0%nat.
    split; [cbn [mapSeries]; unfold resolve; f_equal; apply unchanged | reflexivity].
  - destruct (Hf x w) as (bs & evs & s & E & T). cbn [mapSeries].
    destruct s as [y | r | r].
    + rewrite (then_fulfilled _ _ _ _ _ E).
      destruct (IH (add_objects bs (add_events evs w))) as (bs' & evs' & s' & n & E' & T').
      destruct T as [T | [_ T]]; [| destruct (T y); reflexivity].
      exists (bs ++ bs')%list, (evs ++ evs')%list.
      destruct s' as [ys | r | r];
        [ rewrite (then_fulfilled _ _ _ _ _ E')
        | rewrite (then_rejected _ _ _ _ _ E')
        | rewrite (then_uncaught _ _ _ _ _ E') ];
        eexists _, (S n); rewrite changed_twice, write_targets_app, T, T';
        (split; reflexivity).
    + rewrite (then_rejected _ _ _ _ _ E).
      exists bs, evs, (Rejected r).
      destruct T as [T | [T _]]; [exists 1%nat | exists 0%nat];
        (split; [reflexivity | rewrite T; reflexivity]).
    + rewrite (then_uncaught _ _ _ _ _ E).
      exists bs, evs, (Uncaught r).
      destruct T as [T | [T _]]; [exists 1%nat | exists 0%nat];
        (split; [reflexivity | rewrite T; reflexivity]).
Qed.

Lemma mapSeries_resolve {A B} (b : B) (l : list A) (w : World) :
  mapSeries l (fun _ => resolve b) w = (Fulfilled (map (fun _ => b) l), w).
Proof.
  induction l as [| x l IH]; [reflexivity |].
  cbn [mapSeries]. rewrite then_resolve.
  rewrite (then_fulfilled _ _ _ _ _ IH). reflexivity.
Qed.

(** What one definition set adds to the world: the call that ensures its
    directory, then writes to the paths of its first [n] definitions. *)
Lemma generateForConfig_effect (imageObj : option ImageObjects) (settings : Settings)
    (config : Config) (w : World) :
  let platformPath := path_join env [outputdirectory settings; path config] in
  exists bs evs s n,
    generateForConfig env imageObj settings config w
    = (s, add_objects bs (add_events (EvEnsureDir platformPath :: evs) w))
    /\ write_targets evs
       = map (fun d => path_join env [platformPath; name d]) (take n (definitions config))
    /\ match fs_ensureDir env platformPath with
       | Some err => s = Rejected err /\ evs = []
       | None => True
       end.
Proof.
  intros platformPath. unfold generateForConfig. fold platformPath. cbv zeta. run.
  destruct (fs_ensureDir env platformPath) as [err |].
  { exists [], [], (Rejected err), 0%nat. split; [| repeat split].
    unfold reject. f_equal. rewrite add_objects_nil. reflexivity. }
  assert (Hseries : exists bs evs (s : Settled (list unit)) n,
             mapSeries (definitions config)
               (fun def =>
                  if String.eqb (type config) "icon"
                  then transformIcon env imageObj platformPath def
                  else if String.eqb (type config) "splash"
                       then transformSplash env imageObj platformPath def
                       else resolve tt)
               (add_events [EvEnsureDir platformPath] w)
             = (s, add_objects bs (add_events evs (add_events [EvEnsureDir platformPath] w)))
             /\ write_targets evs
                = map (fun d => path_join env [platformPath; name d])
                    (take n (definitions config))).
  { destruct (String.eqb (type config) "icon");
      [| destruct (String.eqb (type config) "splash")].
    - apply mapSeries_effect. intros d. apply transformIcon_effect.
    - apply mapSeries_effect. intros d. apply transformSplash_effect.
    - rewrite mapSeries_resolve. eexists [], [], _, 0%nat.
      split; [f_equal; apply unchanged | reflexivity]. }
  destruct Hseries as (bs & evs & s & n & E & T).
  destruct s as [ys | r | r];
    [ rewrite (then_fulfilled _ _ _ _ _ E)
    | rewrite (then_rejected _ _ _ _ _ E)
    | rewrite (then_uncaught _ _ _ _ _ E) ].
  - unfold display.success, emit.
    eexists bs, (evs ++ [_])%list, _, n. split; [same_outcome | split; [| exact I]].
    rewrite write_targets_app, T. cbn [write_targets]. apply app_nil_r.
  - exists bs, evs, (Rejected r), n. split; [same_outcome | split; [exact T | exact I]].
  - exists bs, evs, (Uncaught r), n. split; [same_outcome | split; [exact T | exact I]].
Qed.

Lemma mapSeries_extends {A B} (f : A -> Promise B) :
  (forall x w, exists bs evs s, f x w = (s, add_objects bs (add_events evs w))) ->
  forall (l : list A) (w : World), exists bs evs s,
    mapSeries l f w = (s, add_objects bs (add_events evs w)).
Proof.
  intros Hf. induction l as [| x l IH]; intros w.
  - exists [], [], (Fulfilled []). cbn [mapSeries]. unfold resolve. f_equal. apply unchanged.
  - destruct (Hf x w) as (bs & evs & s & E). cbn [mapSeries].
    destruct s as [y | r | r].
    + rewrite (then_fulfilled _ _ _ _ _ E).
      destruct (IH (add_objects bs (add_events evs w))) as (bs' & evs' & s' & E').
      exists (bs ++ bs')%list, (evs ++ evs')%list.
      destruct s' as [ys | r | r];
        [ rewrite (then_fulfilled _ _ _ _ _ E')
        | rewrite (then_rejected _ _ _ _ _ E')
        | rewrite (then_uncaught _ _ _ _ _ E') ];
        eexists; rewrite changed_twice; reflexivity.
    + rewrite (then_rejected _ _ _ _ _ E). exists bs, evs, (Rejected r). reflexivity.
    + rewrite (then_uncaught _ _ _ _ _ E). exists bs, evs, (Uncaught r). reflexivity.
Qed.

Lemma generateForConfig_extends (imageObj : option ImageObjects) (settings : Settings)
    (config : Config) (w : World) :
  exists bs evs s,
    generateForConfig env imageObj settings config w
    = (s, add_objects bs (add_events evs w)).
Proof.
  destruct (generateForConfig_effect imageObj settings config w)
    as (bs & evs & s & _ & E & _ & _).
  eexists bs, _, s. exact E.
Qed.

(** Generation appends objects and events and changes nothing else. *)
Lemma generate_effect (imageObj : option ImageObjects) (settings : Settings) (w : World) :
  exists bs evs s,
    generate env imageObj settings w = (s, add_objects bs (add_events evs w)).
Proof.
  unfold generate. run. cbn [g_selectedPlatforms add_events].
  destruct (collect_configs env (g_selectedPlatforms w)) as [configs |].
  - destruct (mapSeries_extends
                (fun config => generateForConfig env imageObj settings config)
                (generateForConfig_extends imageObj settings)
                configs
                (add_events [EvDisplay Header "Generating files"] w))
      as (bs & evs & s & E).
    destruct s as [ys | r | r];
      [ rewrite (then_fulfilled _ _ _ _ _ E)
      | rewrite (then_rejected _ _ _ _ _ E)
      | rewrite (then_uncaught _ _ _ _ _ E) ];
      eexists bs, (_ :: evs), _; same_outcome.
  - eexists [], [_], _. unfold reject. f_equal. rewrite add_objects_nil. reflexivity.
Qed.

End Generation.

(** ** The output files *)

(** On the sample input every definition of the set is written. *)
Example sample_icons_are_all_written :
  written_files
    (trace (snd (generateForConfig
                   (sample_env (mkBitmap 1024 1024 []) (mkBitmap 2732 2732 []) "")
                   (Some {| icon := 0; splash := 1 |})
                   (sample_settings (JsString "android")) sample_icons sample_validated)))
  = ["out/android/icon/ldpi.png"; "out/android/icon/mdpi.png"; "out/android/icon/hdpi.png"].
Proof. reflexivity. Qed.

(** ** The source images *)

(** A successful validation leaves the two decoded images in the heap and
    their references in [g_imageObjects]. *)
Lemma check_loads_the_sources (env : Env) (settings : Settings) (w : World) :
  fst (check env settings w) = Fulfilled tt ->
  exists bi bs,
    jimp_read env (iconfile settings) = inr bi
    /\ jimp_read env (splashfile settings) = inr bs
    /\ heap (snd (check env settings w)) = (heap w ++ [bi; bs])%list
    /\ g_imageObjects (snd (check env settings w))
       = Some {| icon := length (heap w); splash := S (length (heap w)) |}.
Proof.
  destruct (checkPlatforms_effect settings) as (s & lvl & msg & Hnu & Hp).
  unfold check. run.
  destruct s as [sel | r | r];
    [ rewrite (then_fulfilled _ _ _ _ _ (Hp _))
    | rewrite (then_rejected _ _ _ _ _ (Hp _)); discriminate
    | destruct (Hnu r); reflexivity ].
  rewrite set_selectedPlatforms_then. unfold getImages. rewrite then_then.
  match goal with
  | |- context [then_ (checkIconFile env settings ?a) ?k ?w1] =>
      pose proof (checkIconFile_eq env settings a w1) as Ei
  end.
  cbv zeta in Ei.
  destruct (jimp_read env (iconfile settings)) as [err | bi];
    [rewrite (then_rejected _ _ _ _ _ Ei); discriminate |].
  destruct ((width bi =? 1024) && (width bi =? height bi));
    [| rewrite (then_rejected _ _ _ _ _ Ei); discriminate].
  rewrite (then_fulfilled _ _ _ _ _ Ei). run.
  match goal with
  | |- context [then_ (checkSplashFile env settings ?a) ?k ?w1] =>
      pose proof (checkSplashFile_eq env settings a w1) as Es
  end.
  cbv zeta in Es.
  destruct (jimp_read env (splashfile settings)) as [err | bs];
    [rewrite (then_rejected _ _ _ _ _ Es); discriminate |].
  destruct ((width bs =? 2732) && (width bs =? height bs));
    [| rewrite (then_rejected _ _ _ _ _ Es); discriminate].
  rewrite (then_fulfilled _ _ _ _ _ Es). run.
  rewrite set_imageObjects_then, checkOutPutDir_eq. cbv zeta.
  intros _. exists bi, bs.
  destruct (fs_pathExists env (outputdirectory settings));
    cbn [fst snd heap g_imageObjects add_events add_objects];
    rewrite <- ?app_assoc, ?length_app; cbn [length app];
    repeat split; do 2 f_equal; lia.
Qed.

(** C9: generation leaves the source images as validation loaded them:
    every definition works on a clone, a new object, so that the heap after
    generation is the heap before it followed by the clones. *)
Theorem sources_are_never_mutated (env : Env) (o : ImageObjects) (settings : Settings)
    (w : World) (bi bs : Bitmap) :
  heap w !! icon o = Some bi ->
  heap w !! splash o = Some bs ->
  heap (snd (generate env (Some o) settings w)) !! icon o = Some bi
  /\ heap (snd (generate env (Some o) settings w)) !! splash o = Some bs
  /\ (exists clones, heap (snd (generate env (Some o) settings w)) = (heap w ++ clones)%list)
  /\ g_imageObjects (snd (generate env (Some o) settings w)) = g_imageObjects w.
Proof.
  intros Hi Hs.
  destruct (generate_effect env (Some o) settings w) as (clones & evs & s & E).
  rewrite E. cbn [snd heap add_objects add_events g_imageObjects].
  repeat split.
  - apply lookup_app_l_Some. exact Hi.
  - apply lookup_app_l_Some. exact Hs.
  - exists clones. reflexivity.
Qed.

Lemma sources_are_never_mutated_witness :
  heap (snd (generate (sample_env (mkBitmap 1024 1024 []) (mkBitmap 2732 2732 []) "")
               (Some {| icon := 0; splash := 1 |})
               (sample_settings (JsString "android")) sample_validated)) !! 0%nat
  = Some (mkBitmap 1024 1024 [])
  /\ heap (snd (generate (sample_env (mkBitmap 1024 1024 []) (mkBitmap 2732 2732 []) "")
                  (Some {| icon := 0; splash := 1 |})
                  (sample_settings (JsString "android")) sample_validated)) !! 1%nat
     = Some (mkBitmap 2732 2732 []).
Proof.
  destruct (sources_are_never_mutated
              (sample_env (mkBitmap 1024 1024 []) (mkBitmap 2732 2732 []) "")
              {| icon := 0; splash := 1 |}
              (sample_settings (JsString "android")) sample_validated
              (mkBitmap 1024 1024 []) (mkBitmap 2732 2732 []) eq_refl eq_refl)
    as (Hi & Hs & _).
  split; [exact Hi | exact Hs].
Defined.

(** ** The crop rectangle *)

Lemma half_times_two (n : Z) : ((inject_Z n / 2) * 2 == inject_Z n)%Q.
Proof. unfold Qeq. cbn. lia. Qed.

Lemma half_is_quotient_iff_even (n : Z) :
  (inject_Z n / 2 == inject_Z (Z.quot n 2))%Q <-> Z.even n = true.
Proof.
  rewrite Z.even_spec. unfold Qeq. cbn. split.
  - intros H. exists (Z.quot n 2). lia.
  - intros [k ->]. rewrite (Z.mul_comm 2 k), Z.quot_mul by lia. lia.
Qed.

(** C2, as the code has it: the rectangle cut out of the clone of the
    splash image has the width and the height of the definition, and its
    offsets are the exact halves of the differences of the dimensions.
    The half is the integer quotient exactly when the difference is even;
    no rounding takes place. *)
Theorem crop_rectangle_is_centred (env : Env) (o : ImageObjects) (platformPath : string)
    (d : Definition_) (bs : Bitmap) (w : World) :
  heap w !! splash o = Some bs ->
  exists x y rest,
    trace (snd (transformSplash env (Some o) platformPath d w))
    = (trace w ++ EvCrop x y (def_width d) (def_height d) :: rest)%list
    /\ (x * 2 == inject_Z (width bs - def_width d))%Q
    /\ (y * 2 == inject_Z (height bs - def_height d))%Q
    /\ ((x == inject_Z (Z.quot (width bs - def_width d) 2))%Q
        <-> Z.even (width bs - def_width d) = true)
    /\ ((y == inject_Z (Z.quot (height bs - def_height d) 2))%Q
        <-> Z.even (height bs - def_height d) = true).
Proof.
  intros H. rewrite (transformSplash_eq env o platformPath d bs w H).
  unfold cropRectangle. cbv zeta.
  exists (inject_Z (width bs - def_width d) / 2)%Q,
         (inject_Z (height bs - def_height d) / 2)%Q.
  destruct (jimp_crop env bs _ _ _ _) as [err | cropped]; eexists;
    (split; [reflexivity |]);
    (split; [apply half_times_two |]);
    (split; [apply half_times_two |]);
    (split; apply half_is_quotient_iff_even).
Qed.

Lemma crop_rectangle_is_centred_witness :
  exists x y rest,
    trace (snd (transformSplash
                  (sample_env (mkBitmap 1024 1024 []) (mkBitmap 2732 2732 []) "")
                  (Some {| icon := 0; splash := 1 |}) "out/android/splash"
                  (mkDefinition "port.png" 0 1125 2436) sample_validated))
    = EvCrop x y 1125 2436 :: rest
    /\ (x * 2 == 1607)%Q /\ (y * 2 == 296)%Q.
Proof.
  destruct (crop_rectangle_is_centred
              (sample_env (mkBitmap 1024 1024 []) (mkBitmap 2732 2732 []) "")
              {| icon := 0; splash := 1 |} "out/android/splash"
              (mkDefinition "port.png" 0 1125 2436)
              (mkBitmap 2732 2732 []) sample_validated eq_refl)
    as (x & y & rest & Ht & Hx & Hy & _).
  exists x, y, rest. split; [exact Ht | split; [exact Hx | exact Hy]].
Defined.

(** C2 as stated fails: for a splash image 2732 wide and a definition 1125
    wide the horizontal offset passed to [crop] is 1607/2, which is neither
    the truncated nor the floored integer quotient 803. *)
Lemma crop_offset_is_not_an_integer_quotient :
  exists x y rest,
    trace (snd (transformSplash
                  (sample_env (mkBitmap 1024 1024 []) (mkBitmap 2732 2732 []) "")
                  (Some {| icon := 0; splash := 1 |}) "out/android/splash"
                  (mkDefinition "port.png" 0 1125 2436) sample_validated))
    = EvCrop x y 1125 2436 :: rest
    /\ ~ (x == inject_Z (Z.quot (2732 - 1125) 2))%Q
    /\ ~ (x == inject_Z ((2732 - 1125) / 2))%Q.
Proof.
  exists (1607 # 2)%Q, (296 # 2)%Q. eexists.
  split; [vm_compute; reflexivity |].
  split; intros H; unfold Qeq in H; vm_compute in H; discriminate H.
Qed.

(** ** Rejected selections *)

Lemma catch_rejected {A} (p : Promise A) (k : Reason -> Promise A) (w w' : World) (r : Reason) :
  p w = (Rejected r, w') -> catch_ p k w = k r w'.
Proof. intros H. unfold catch_. rewrite H. reflexivity. Qed.

Lemma catch_uncaught {A} (p : Promise A) (k : Reason -> Promise A) (w w' : World) (r : Reason) :
  p w = (Uncaught r, w') -> catch_ p k w = (Uncaught r, w').
Proof. intros H. unfold catch_. rewrite H. reflexivity. Qed.

(** C5, as the code has it: a filter that is not the empty string and has
    a token outside the registry is rejected with the list of those tokens;
    the run then ends with lines on the console and nothing else: no
    platform selected, no image read, no directory made, no file written. *)
Theorem unknown_token_rejects_selection (env : Env) (program : Program) (s : string) :
  prog_platforms program = JsString s ->
  s <> "" ->
  Exists (fun t => t ∉ keys PLATFORMS) (split "," s) ->
  let msg := "Bad platforms: "
             ++ array_to_string (List.filter (fun t => negb (known t)) (split "," s)) in
  (forall w, fst (checkPlatforms (g_settings env program) w) = Rejected (Thrown msg))
  /\ main env program initial
     = (Fulfilled tt,
        {| heap := [];
           trace := [EvConsoleLog "";
                     EvConsoleLog ("cordova-res-generator " ++ pjson_version env);
                     EvDisplay Header "Checking files and directories";
                     EvDisplay Error msg;
                     EvConsoleError (Thrown msg)];
           g_selectedPlatforms := [];
           g_imageObjects := None |}).
Proof.
  intros Hprog Hs Hex msg.
  assert (Hp : platforms (g_settings env program) = JsString s).
  { cbn [g_settings platforms]. rewrite Hprog. unfold Js.or. cbn [truthy].
    destruct (String.eqb_spec s "") as [-> | _]; [contradiction | reflexivity]. }
  assert (Hsel : forall w, checkPlatforms (g_settings env program) w
                           = (Rejected (Thrown msg), add_events [EvDisplay Error msg] w)).
  { intros w. rewrite (checkPlatforms_filter _ s w Hp Hs). cbv zeta.
    pose proof (filter_some_unknown _ Hex) as Hne.
    destruct (List.filter (fun t => negb (known t)) (split "," s)) eqn:E;
      [contradiction | reflexivity]. }
  split; [intros w; rewrite Hsel; reflexivity |].
  unfold main. run.
  assert (Hcheck : forall w, check env (g_settings env program) w
                   = (Rejected (Thrown msg),
                      add_events [EvDisplay Header "Checking files and directories";
                                  EvDisplay Error msg] w)).
  { intros w. unfold check. run. rewrite (then_rejected _ _ _ _ _ (Hsel _)). same_outcome. }
  rewrite (catch_rejected _ _ _ _ _ (then_rejected _ _ _ _ _ (Hcheck _))).
  reflexivity.
Qed.

Lemma unknown_token_rejects_selection_witness :
  main (sample_env (mkBitmap 1024 1024 []) (mkBitmap 2732 2732 []) "")
    (sample_program (JsString "android,bogus")) initial
  = (Fulfilled tt,
     {| heap := [];
        trace := [EvConsoleLog "";
                  EvConsoleLog "cordova-res-generator 1.0.0";
                  EvDisplay Header "Checking files and directories";
                  EvDisplay Error "Bad platforms: bogus";
                  EvConsoleError (Thrown "Bad platforms: bogus")];
        g_selectedPlatforms := [];
        g_imageObjects := None |}).
Proof.
  refine (proj2 (unknown_token_rejects_selection
                   (sample_env (mkBitmap 1024 1024 []) (mkBitmap 2732 2732 []) "")
                   (sample_program (JsString "android,bogus")) "android,bogus"
                   eq_refl _ _)).
  - discriminate.
  - apply Exists_cons_tl, Exists_cons_hd. intros H.
    apply known_spec in H. discriminate H.
Defined.

(** C5 as stated fails: the empty string has one token, the empty one,
    which no registry has, and yet it selects every platform and the run
    goes on to write files. *)
Lemma empty_filter_is_not_rejected :
  Exists (fun t => t ∉ keys PLATFORMS) (split "," "")
  /\ fst (checkPlatforms (sample_settings (JsString "")) initial)
     = Fulfilled ["android"; "ios"; "windows"; "blackberry10"]
  /\ written_files
       (trace (snd (main (sample_env (mkBitmap 1024 1024 []) (mkBitmap 2732 2732 []) "")
                      (sample_program (JsString "")) initial)))
     = ["out/android/icon/ldpi.png"; "out/android/icon/mdpi.png";
        "out/android/icon/hdpi.png"; "out/android/splash/port.png"].
Proof.
  split; [| split].
  - apply Exists_cons_hd. intros H. apply known_spec in H. discriminate H.
  - reflexivity.
  - vm_compute. reflexivity.
Qed.

(** ** Failures during generation *)

(** A failing transformation rejects the promise of its definition. *)
Lemma resize_failure_is_rejected (env : Env) (o : ImageObjects) (platformPath : string)
    (d : Definition_) (bi : Bitmap) (w : World) (err : Reason) :
  heap w !! icon o = Some bi ->
  jimp_resize env bi (size d) (size d) = inl err ->
  fst (transformIcon env (Some o) platformPath d w) = Rejected err.
Proof.
  intros H Hr. rewrite (transformIcon_eq env o platformPath d bi w H).
  cbv zeta. rewrite Hr. reflexivity.
Qed.

(** A failing [write] throws in its callback: the promise of the
    definition is neither fulfilled nor rejected. *)
Lemma write_failure_is_uncaught (env : Env) (o : ImageObjects) (platformPath : string)
    (d : Definition_) (bi resized : Bitmap) (w : World) (err : Reason) :
  heap w !! icon o = Some bi ->
  jimp_resize env bi (size d) (size d) = inr resized ->
  jimp_write env (path_join env [platformPath; name d]) resized = Some err ->
  fst (transformIcon env (Some o) platformPath d w) = Uncaught err.
Proof.
  intros H Hr Hw. rewrite (transformIcon_eq env o platformPath d bi w H).
  cbv zeta. rewrite Hr, Hw. reflexivity.
Qed.

(** C3 at a failing write: with android selected and [mdpi.png] not
    writable, the run stops after the first icon, which stays written, and
    the later definitions are not generated; but the error is not handed
    to [catchErrors]: the chain of promises never settles and nothing is
    logged by the orchestrator. *)
Theorem write_failure_does_not_reach_the_orchestrator :
  fst (main (sample_env (mkBitmap 1024 1024 []) (mkBitmap 2732 2732 [])
               "out/android/icon/mdpi.png")
         (sample_program (JsString "android")) initial)
  = Uncaught (LibError "EACCES")
  /\ List.filter (fun e => match e with EvConsoleError _ => true | _ => false end)
       (trace (snd (main (sample_env (mkBitmap 1024 1024 []) (mkBitmap 2732 2732 [])
                            "out/android/icon/mdpi.png")
                      (sample_program (JsString "android")) initial)))
     = []
  /\ write_targets
       (trace (snd (main (sample_env (mkBitmap 1024 1024 []) (mkBitmap 2732 2732 [])
                            "out/android/icon/mdpi.png")
                      (sample_program (JsString "android")) initial)))
     = ["out/android/icon/ldpi.png"; "out/android/icon/mdpi.png"]
  /\ written_files
       (trace (snd (main (sample_env (mkBitmap 1024 1024 []) (mkBitmap 2732 2732 [])
                            "out/android/icon/mdpi.png")
                      (sample_program (JsString "android")) initial)))
     = ["out/android/icon/ldpi.png"].
Proof. repeat split; vm_compute; reflexivity. Qed.

(** ** The whole run *)

Lemma catchErrors_heap (r : Reason) (w : World) :
  heap (snd (catchErrors r w)) = heap w.
Proof. destruct r as [[| c msg] | msg]; reflexivity. Qed.

(** X17: after a run whose validation succeeded the heap starts with the
    two images as they were decoded, whatever generation did afterwards. *)
Lemma main_keeps_the_loaded_sources (env : Env) (program : Program) :
  fst (check env (g_settings env program)
         (add_events [EvConsoleLog "";
                      EvConsoleLog ("cordova-res-generator " ++ pjson_version env)] initial))
  = Fulfilled tt ->
  exists bi bs clones,
    jimp_read env (iconfile (g_settings env program)) = inr bi
    /\ jimp_read env (splashfile (g_settings env program)) = inr bs
    /\ heap (snd (main env program initial)) = ([bi; bs] ++ clones)%list.
Proof.
  intros Hcheck.
  destruct (check_loads_the_sources env _ _ Hcheck) as (bi & bs & Hi & Hs & Hheap & _).
  exists bi, bs. unfold main. run. unfold catch_.
  destruct (check env (g_settings env program) _) as [s w1] eqn:E.
  cbn [fst snd] in Hcheck, Hheap. subst s.
  rewrite (then_fulfilled _ _ _ _ _ E).
  destruct (generate_effect env (g_imageObjects w1) (g_settings env program) w1)
    as (clones & evs & s & G).
  rewrite G. exists clones. split; [exact Hi | split; [exact Hs |]].
  destruct s as [[] | r | r]; rewrite ?catchErrors_heap;
    cbn [snd heap add_objects add_events]; rewrite Hheap; reflexivity.
Qed.

(** * Further properties *)

(** ** Tokens *)

Lemma split_not_nil (sep : ascii) (s : string) : split sep s <> [].
Proof.
  destruct s as [| c r]; cbn [split]; [discriminate |].
  destruct (Ascii.eqb c sep); [discriminate |].
  destruct (split sep r); discriminate.
Qed.

(** Joining the tokens of a string with commas gives the string back. *)
Lemma concat_split (s : string) : array_to_string (split "," s) = s.
Proof.
  unfold array_to_string.
  induction s as [| c r IH]; [reflexivity |].
  cbn [split]. pose proof (split_not_nil "," r) as Hne.
  destruct (split "," r) as [| h t]; [contradiction |].
  destruct (Ascii.eqb_spec c ",") as [-> | Hc].
  - change (String "," (String.concat "," (h :: t)) = String "," r).
    rewrite IH. reflexivity.
  - transitivity (String c (String.concat "," (h :: t))).
    + destruct t; reflexivity.
    + rewrite IH. reflexivity.
Qed.

(** A comma at the end of a string adds an empty token. *)
Lemma split_trailing_comma (s : string) :
  split "," (s ++ ",") = (split "," s ++ [""])%list.
Proof.
  induction s as [| c r IH]; [reflexivity |].
  change (String c r ++ ",") with (String c (r ++ ",")).
  cbn [split]. rewrite IH.
  destruct (Ascii.eqb c ","); [reflexivity |].
  pose proof (split_not_nil "," r) as Hne.
  destruct (split "," r) as [| h t]; [contradiction | reflexivity].
Qed.

Lemma append_comma_not_empty (s : string) : s ++ "," <> "".
Proof. destruct s; discriminate. Qed.

(** ** More on the selection *)

(** X1: an accepted filter is echoed on the console exactly as it was
    typed, and the selection changes nothing else in the world. *)
Theorem accepted_filter_is_echoed (settings : Settings) (s : string) (w : World) :
  platforms settings = JsString s ->
  Forall (fun t => t ∈ keys PLATFORMS) (split "," s) ->
  snd (checkPlatforms settings w)
  = add_events [EvDisplay Success ("Processing files for: " ++ s)] w.
Proof.
  intros Hp Hall.
  assert (Hs : s <> "").
  { intros ->. inversion Hall as [| ? ? Hin _]. apply known_spec in Hin. discriminate. }
  rewrite (checkPlatforms_filter settings s w Hp Hs).
  destruct (filter_all_known _ Hall) as [-> ->]. cbv zeta. cbn [snd].
  rewrite concat_split. reflexivity.
Qed.

Lemma accepted_filter_is_echoed_witness :
  snd (checkPlatforms (sample_settings (JsString "ios,android,ios")) initial)
  = add_events [EvDisplay Success "Processing files for: ios,android,ios"] initial.
Proof.
  refine (accepted_filter_is_echoed (sample_settings (JsString "ios,android,ios"))
            "ios,android,ios" initial eq_refl _).
  repeat constructor.
Defined.

(** X2: a filter that ends with a comma is rejected, whatever stands
    before the comma: the empty token after it is no platform. *)
Theorem trailing_comma_is_rejected (settings : Settings) (s : string) (w : World) :
  platforms settings = JsString (s ++ ",") ->
  exists unknown,
    fst (checkPlatforms settings w)
    = Rejected (Thrown ("Bad platforms: " ++ array_to_string unknown))
    /\ last unknown = Some "".
Proof.
  intros Hp.
  rewrite (checkPlatforms_filter settings _ w Hp (append_comma_not_empty s)).
  cbv zeta. rewrite split_trailing_comma, List.filter_app.
  cbn [List.filter known negb].
  change (negb (known "")) with true. cbn iota.
  destruct (List.filter (fun t => negb (known t)) (split "," s) ++ [""])%list
    as [| u us] eqn:E.
  - destruct (List.filter _ (split "," s)); discriminate E.
  - exists (u :: us). split; [reflexivity |]. rewrite <- E. apply last_snoc.
Qed.

Lemma trailing_comma_is_rejected_witness :
  exists unknown,
    fst (checkPlatforms (sample_settings (JsString "android,")) initial)
    = Rejected (Thrown ("Bad platforms: " ++ array_to_string unknown))
    /\ last unknown = Some "".
Proof.
  exact (trailing_comma_is_rejected (sample_settings (JsString "android,"))
           "android" initial eq_refl).
Defined.

Lemma get_registry_key (p : string) :
  p ∈ keys PLATFORMS -> exists defs, get PLATFORMS p = Some defs.
Proof.
  intros Hin. cbn [keys PLATFORMS map fst] in Hin.
  repeat (apply elem_of_cons in Hin as [-> | Hin]; [eexists; reflexivity |]).
  inversion Hin.
Qed.

Lemma filter_known_keys (toks : list string) :
  Forall (fun t => t ∈ keys PLATFORMS) (List.filter known toks).
Proof.
  induction toks as [| t toks IH]; [constructor |].
  cbn [List.filter]. destruct (known t) eqn:E; [| exact IH].
  constructor; [apply known_spec; exact E | exact IH].
Qed.

Lemma keys_are_keys : Forall (fun t => t ∈ keys PLATFORMS) (keys PLATFORMS).
Proof. apply Forall_forall. intros x Hx. exact Hx. Qed.

Lemma selection_in_registry (settings : Settings) (w : World) (sel : list string) :
  fst (checkPlatforms settings w) = Fulfilled sel ->
  Forall (fun p => p ∈ keys PLATFORMS) sel.
Proof.
  destruct (platforms settings) as [| | b | z | s] eqn:Hp;
    try (rewrite checkPlatforms_all by (right; rewrite Hp; reflexivity);
         intros [= <-]; apply keys_are_keys).
  destruct (String.eqb_spec s "") as [-> | Hs].
  - rewrite checkPlatforms_all by (left; rewrite Hp; reflexivity).
    intros [= <-]. apply keys_are_keys.
  - rewrite (checkPlatforms_filter settings s w Hp Hs). cbv zeta.
    destruct (List.filter (fun t => negb (known t)) (split "," s)); [| discriminate].
    intros [= <-]. apply filter_known_keys.
Qed.

Lemma collect_configs_known (env : Env) (sel : list string) :
  Forall (fun p => p ∈ keys PLATFORMS) sel ->
  exists configs, collect_configs env sel = Some configs.
Proof.
  induction 1 as [| p sel Hp _ [configs IH]]; [exists []; reflexivity |].
  destruct (get_registry_key p Hp) as [defs Hd].
  cbn [collect_configs]. rewrite Hd, IH. eexists. reflexivity.
Qed.

(** X3: whatever the filter, a selection that succeeds holds keys of the
    registry only, so that generation finds the definition sets of every
    selected platform. *)
Theorem selected_platforms_are_in_the_registry (env : Env) (settings : Settings)
    (w : World) (sel : list string) :
  fst (checkPlatforms settings w) = Fulfilled sel ->
  Forall (fun p => p ∈ keys PLATFORMS) sel
  /\ exists configs, collect_configs env sel = Some configs.
Proof.
  intros H. pose proof (selection_in_registry settings w sel H) as Hk.
  split; [exact Hk | apply collect_configs_known; exact Hk].
Qed.

Lemma selected_platforms_are_in_the_registry_witness :
  Forall (fun p => p ∈ keys PLATFORMS) ["windows"; "android"]
  /\ exists configs,
       collect_configs (sample_env (mkBitmap 1024 1024 []) (mkBitmap 2732 2732 []) "")
         ["windows"; "android"] = Some configs.
Proof.
  exact (selected_platforms_are_in_the_registry
           (sample_env (mkBitmap 1024 1024 []) (mkBitmap 2732 2732 []) "")
           (sample_settings (JsString "windows,android")) initial
           ["windows"; "android"] eq_refl).
Defined.

(** ** More on the validation *)

(** The run of [check], case by case: the selection, then the icon, then
    the splash image.  The output directory is left to the caller. *)
Ltac check_cases env settings :=
  let s := fresh "s" in
  let lvl := fresh "lvl" in
  let msg := fresh "msg" in
  let Hnu := fresh "Hnu" in
  let Hp := fresh "Hp" in
  let Ei := fresh "Ei" in
  let Es := fresh "Es" in
  let r := fresh "r" in
  destruct (checkPlatforms_effect settings) as (s & lvl & msg & Hnu & Hp);
  unfold check; run; rewrite ?Hp;
  destruct s as [? | ? | r];
  [ rewrite (then_fulfilled _ _ _ _ _ (Hp _));
    rewrite set_selectedPlatforms_then; unfold getImages; rewrite then_then;
    match goal with
    | |- context [then_ (checkIconFile env settings ?a) ?k ?w1] =>
        pose proof (checkIconFile_eq env settings a w1) as Ei
    end;
    cbv zeta in Ei;
    destruct (jimp_read env (iconfile settings)) as [? | ?];
    [ rewrite (then_rejected _ _ _ _ _ Ei)
    | match type of Ei with
      | context [if ?c then _ else _] => destruct c eqn:?
      end;
      [ rewrite (then_fulfilled _ _ _ _ _ Ei); run;
        match goal with
        | |- context [then_ (checkSplashFile env settings ?a) ?k ?w1] =>
            pose proof (checkSplashFile_eq env settings a w1) as Es
        end;
        cbv zeta in Es;
        destruct (jimp_read env (splashfile settings)) as [? | ?];
        [ rewrite (then_rejected _ _ _ _ _ Es)
        | match type of Es with
          | context [if ?c then _ else _] => destruct c eqn:?
          end;
          [ rewrite (then_fulfilled _ _ _ _ _ Es); run;
            rewrite set_imageObjects_then, checkOutPutDir_eq; cbv zeta;
            destruct (fs_pathExists env (outputdirectory settings))
          | rewrite (then_rejected _ _ _ _ _ Es) ] ]
      | rewrite (then_rejected _ _ _ _ _ Ei) ] ]
  | rewrite (then_rejected _ _ _ _ _ (Hp _))
  | destruct (Hnu r); reflexivity ];
  clear Hp; try clear Ei; try clear Es;
  cbn [fst snd heap trace g_selectedPlatforms g_imageObjects add_events add_objects].

(** X4: validation succeeds exactly when the selection succeeds, the icon
    decodes to 1024x1024, the splash image decodes to 2732x2732 and the
    output directory exists. *)
Theorem check_succeeds_iff (env : Env) (settings : Settings) (w : World) :
  fst (check env settings w) = Fulfilled tt
  <-> (exists sel, fst (checkPlatforms settings w) = Fulfilled sel)
      /\ (exists bi, jimp_read env (iconfile settings) = inr bi
                     /\ width bi = 1024 /\ height bi = 1024)
      /\ (exists bs, jimp_read env (splashfile settings) = inr bs
                     /\ width bs = 2732 /\ height bs = 2732)
      /\ fs_pathExists env (outputdirectory settings) = true.
Proof.
  check_cases env settings.
  all: repeat match goal with
              | H : (_ && _) = _ |- _ => 
                  first [ apply square_test in H
                        | apply not_true_iff_false in H; rewrite square_test in H ]
              end.
  all: split;
    [ try discriminate
    | intros ([sel Hsel] & (bi' & Hbi & Hwi & Hhi) & (bs' & Hbs & Hws & Hhs) & Hd);
      try discriminate;
      try (injection Hbi as <-); try (injection Hbs as <-);
      try tauto ].
  intros _. repeat split; eauto; try tauto.
  all: eexists; repeat split; try reflexivity; tauto.
Qed.

(** X5: validation always settles, and when it rejects, the reason is
    that of the selection, the error of the library that could not decode
    the icon or the splash image, the bad image format, or the missing
    output directory. *)
Theorem check_rejection_reasons (env : Env) (settings : Settings) (w : World) :
  match fst (check env settings w) with
  | Fulfilled _ => True
  | Rejected r =>
      fst (checkPlatforms settings w) = Rejected r
      \/ jimp_read env (iconfile settings) = inl r
      \/ jimp_read env (splashfile settings) = inl r
      \/ r = Thrown "Bad image format"
      \/ r = Thrown ("Output directory not found: " ++ outputdirectory settings)
  | Uncaught _ => False
  end.
Proof. check_cases env settings; tauto. Qed.

(** X6: one file given as icon and as splash image never passes the
    validation: it cannot be 1024 and 2732 wide at once. *)
Theorem same_file_for_icon_and_splash_fails (env : Env) (settings : Settings) (w : World) :
  iconfile settings = splashfile settings ->
  fst (check env settings w) <> Fulfilled tt.
Proof.
  intros Hsame.
  assert (Hj : jimp_read env (iconfile settings) = jimp_read env (splashfile settings))
    by (rewrite Hsame; reflexivity).
  revert Hj. clear Hsame.
  check_cases env settings; try discriminate.
  intros [= ->].
  repeat match goal with
         | H : (_ && _) = true |- _ => apply square_test in H
         end.
  lia.
Qed.

Lemma same_file_for_icon_and_splash_fails_witness :
  fst (check (sample_env (mkBitmap 1024 1024 []) (mkBitmap 2732 2732 []) "")
         (mkSettings "icon.png" "icon.png" JsUndefined "out") initial)
  <> Fulfilled tt.
Proof.
  exact (same_file_for_icon_and_splash_fails
           (sample_env (mkBitmap 1024 1024 []) (mkBitmap 2732 2732 []) "")
           (mkSettings "icon.png" "icon.png" JsUndefined "out") initial eq_refl).
Defined.

(** X7: the two global variables change with the stage that computes
    them and not with the outcome of the whole validation: the selection
    is stored as soon as it succeeds, the image objects as soon as both
    images pass, also when a later check fails; otherwise they keep their
    values. *)
Theorem check_updates_the_globals (env : Env) (settings : Settings) (w : World) :
  g_selectedPlatforms (snd (check env settings w))
  = match fst (checkPlatforms settings w) with
    | Fulfilled sel => sel
    | _ => g_selectedPlatforms w
    end
  /\ g_imageObjects (snd (check env settings w))
     = match fst (checkPlatforms settings w),
             jimp_read env (iconfile settings),
             jimp_read env (splashfile settings) with
       | Fulfilled _, inr bi, inr bs =>
           if ((width bi =? 1024) && (width bi =? height bi))
              && ((width bs =? 2732) && (width bs =? height bs))
           then Some {| icon := length (heap w); splash := S (length (heap w)) |}
           else g_imageObjects w
       | _, _, _ => g_imageObjects w
       end.
Proof.
  check_cases env settings;
    repeat match goal with
           | H : (_ && _) = _ |- _ => rewrite H
           end;
    cbn [andb]; split; try reflexivity.
  all: rewrite ?length_app; cbn [length]; rewrite ?Nat.add_1_r; try reflexivity.
  all: destruct (jimp_read env (splashfile settings)); reflexivity.
Qed.

(** ** More on the whole run *)

Lemma check_makes_no_generation_call (env : Env) (settings : Settings) (w : World) :
  List.filter is_generation (trace (snd (check env settings w)))
  = List.filter is_generation (trace w).
Proof.
  check_cases env settings;
    rewrite <- ?app_assoc, !List.filter_app;
    cbn [List.filter is_generation app]; rewrite ?app_nil_r; reflexivity.
Qed.


Lemma catchErrors_fulfils (r : Reason) (w : World) : fst (catchErrors r w) = Fulfilled tt.
Proof. destruct r as [[| c msg] | msg]; reflexivity. Qed.

Lemma catchErrors_no_generation (r : Reason) (w : World) :
  List.filter is_generation (trace (snd (catchErrors r w)))
  = List.filter is_generation (trace w).
Proof.
  destruct r as [[| c msg] | msg]; cbn [catchErrors]; try reflexivity;
    unfold emit; cbn [snd trace add_events];
    rewrite List.filter_app; cbn [List.filter is_generation]; apply app_nil_r.
Qed.

(** X8: a run whose validation does not succeed, for whatever reason,
    makes no call of generation: no directory is made, no image resized or
    cropped, no file written. *)
Theorem failed_validation_generates_nothing (env : Env) (program : Program) :
  fst (check env (g_settings env program)
         (add_events [EvConsoleLog "";
                      EvConsoleLog ("cordova-res-generator " ++ pjson_version env)] initial))
  <> Fulfilled tt ->
  List.filter is_generation (trace (snd (main env program initial))) = [].
Proof.
  intros Hfail. unfold main. run. unfold catch_.
  pose proof (check_makes_no_generation_call env (g_settings env program)
                (add_events [EvConsoleLog "";
                             EvConsoleLog ("cordova-res-generator " ++ pjson_version env)]
                   initial)) as Hno.
  destruct (check env (g_settings env program) _) as [s w1] eqn:E.
  cbn [fst snd] in Hfail, Hno.
  destruct s as [[] | r | r].
  - contradiction.
  - rewrite (then_rejected _ _ _ _ _ E), catchErrors_no_generation. exact Hno.
  - rewrite (then_uncaught _ _ _ _ _ E). exact Hno.
Qed.

Lemma failed_validation_generates_nothing_witness :
  List.filter is_generation
    (trace (snd (main (sample_env (mkBitmap 512 512 []) (mkBitmap 2732 2732 []) "")
                   (sample_program (JsString "android")) initial)))
  = [].
Proof.
  refine (failed_validation_generates_nothing
            (sample_env (mkBitmap 512 512 []) (mkBitmap 2732 2732 []) "")
            (sample_program (JsString "android")) _).
  discriminate.
Defined.

(** ** More on the generation *)

Section Series.

Context {A B T : Type}.
Variable tg : list Event -> list T.
Hypothesis tg_nil : tg [] = [].
Hypothesis tg_app : forall e1 e2, tg (e1 ++ e2) = (tg e1 ++ tg e2)%list.
Variable Inv : World -> Prop.
Hypothesis Inv_stable : forall bs evs w, Inv w -> Inv (add_objects bs (add_events evs w)).
Variable f : A -> Promise B.

(** What every step yields, the series yields. *)
Lemma mapSeries_forall (Q : T -> Prop) (l : list A) :
  (forall x w, In x l -> Inv w ->
     exists bs evs s, f x w = (s, add_objects bs (add_events evs w))
                      /\ Forall Q (tg evs)) ->
  forall w, Inv w ->
    exists bs evs s, mapSeries l f w = (s, add_objects bs (add_events evs w))
                     /\ Forall Q (tg evs).
Proof.
  induction l as [| x l IH]; intros Hstep w Hw.
  - exists [], [], (Fulfilled []). split; [| rewrite tg_nil; constructor].
    cbn [mapSeries]. unfold resolve. f_equal. apply unchanged.
  - destruct (Hstep x w (or_introl eq_refl) Hw) as (bs & evs & s & E & HQ).
    cbn [mapSeries]. destruct s as [y | r | r].
    + rewrite (then_fulfilled _ _ _ _ _ E).
      destruct (IH (fun x' w' Hin => Hstep x' w' (or_intror Hin))
                  (add_objects bs (add_events evs w)) (Inv_stable _ _ _ Hw))
        as (bs' & evs' & s' & E' & HQ').
      exists (bs ++ bs')%list, (evs ++ evs')%list.
      destruct s' as [ys | r | r];
        [ rewrite (then_fulfilled _ _ _ _ _ E')
        | rewrite (then_rejected _ _ _ _ _ E')
        | rewrite (then_uncaught _ _ _ _ _ E') ];
        eexists; rewrite changed_twice, tg_app;
        (split; [reflexivity | apply Forall_app; split; assumption]).
    + rewrite (then_rejected _ _ _ _ _ E). exists bs, evs, (Rejected r).
      split; [reflexivity | exact HQ].
    + rewrite (then_uncaught _ _ _ _ _ E). exists bs, evs, (Uncaught r).
      split; [reflexivity | exact HQ].
Qed.

(** When every step fulfils, so does the series, and it yields what the
    steps yield, in their order. *)
Lemma mapSeries_all (g : A -> list T) (l : list A) :
  (forall x w, Inv w ->
     exists bs evs y, f x w = (Fulfilled y, add_objects bs (add_events evs w))
                      /\ tg evs = g x) ->
  forall w, Inv w ->
    exists bs evs ys, mapSeries l f w = (Fulfilled ys, add_objects bs (add_events evs w))
                      /\ tg evs = flat_map g l.
Proof.
  intros Hstep. induction l as [| x l IH]; intros w Hw.
  - exists [], [], []. split; [| exact tg_nil].
    cbn [mapSeries]. unfold resolve. f_equal. apply unchanged.
  - destruct (Hstep x w Hw) as (bs & evs & y & E & Hg).
    destruct (IH (add_objects bs (add_events evs w)) (Inv_stable _ _ _ Hw))
      as (bs' & evs' & ys & E' & Hg').
    exists (bs ++ bs')%list, (evs ++ evs')%list, (y :: ys).
    cbn [mapSeries flat_map].
    rewrite (then_fulfilled _ _ _ _ _ E), (then_fulfilled _ _ _ _ _ E').
    unfold resolve. rewrite changed_twice, tg_app, Hg, Hg'.
    split; reflexivity.
Qed.

(** When every step yields one item of its own, the series yields the
    items of the first [n] elements; of all of them when it fulfils. *)
Lemma mapSeries_prefix (g : A -> T) (l : list A) :
  (forall x w, exists bs evs s, f x w = (s, add_objects bs (add_events evs w))
                                /\ tg evs = [g x]) ->
  forall w, exists bs evs s n,
    mapSeries l f w = (s, add_objects bs (add_events evs w))
    /\ tg evs = map g (take n l)
    /\ (forall ys, s = Fulfilled ys -> n = length l).
Proof.
  intros Hstep. induction l as [| x l IH]; intros w.
  - exists [], [], (Fulfilled []), 0%nat. split; [| split; [exact tg_nil | reflexivity]].
    cbn [mapSeries]. unfold resolve. f_equal. apply unchanged.
  - destruct (Hstep x w) as (bs & evs & s & E & Hg). cbn [mapSeries].
    destruct s as [y | r | r].
    + rewrite (then_fulfilled _ _ _ _ _ E).
      destruct (IH (add_objects bs (add_events evs w)))
        as (bs' & evs' & s' & n & E' & Hg' & Hn).
      exists (bs ++ bs')%list, (evs ++ evs')%list.
      destruct s' as [ys | r | r];
        [ rewrite (then_fulfilled _ _ _ _ _ E')
        | rewrite (then_rejected _ _ _ _ _ E')
        | rewrite (then_uncaught _ _ _ _ _ E') ];
        eexists _, (S n); rewrite changed_twice, tg_app, Hg, Hg';
        (split; [reflexivity | split; [reflexivity |]]);
        try discriminate.
      intros ys' _. cbn [length]. f_equal. apply (Hn ys). reflexivity.
    + rewrite (then_rejected _ _ _ _ _ E). exists bs, evs, (Rejected r), 1%nat.
      split; [reflexivity | split; [rewrite Hg; reflexivity | discriminate]].
    + rewrite (then_uncaught _ _ _ _ _ E). exists bs, evs, (Uncaught r), 1%nat.
      split; [reflexivity | split; [rewrite Hg; reflexivity | discriminate]].
Qed.

End Series.


Lemma written_app (e1 e2 : list Event) :
  written (e1 ++ e2) = (written e1 ++ written e2)%list.
Proof.
  induction e1 as [| e e1 IH]; [reflexivity |].
  destruct e as [| | | | | | | file b [err |] |]; cbn [written app]; rewrite IH; reflexivity.
Qed.

Lemma written_files_app (e1 e2 : list Event) :
  written_files (e1 ++ e2) = (written_files e1 ++ written_files e2)%list.
Proof.
  induction e1 as [| e e1 IH]; [reflexivity |].
  destruct e as [| | | | | | | file b [err |] |]; cbn [written_files app];
    rewrite IH; reflexivity.
Qed.

Section MoreGeneration.

Variable env : Env.

(** [generateForConfig], step by step. *)
Lemma generateForConfig_eq (imageObj : option ImageObjects) (settings : Settings)
    (config : Config) (w : World) :
  generateForConfig env imageObj settings config w =
    let platformPath := platform_path env settings config in
    let w1 := add_events [EvEnsureDir platformPath] w in
    match fs_ensureDir env platformPath with
    | Some err => (Rejected err, w1)
    | None =>
        match mapSeries (definitions config)
                (transform env imageObj platformPath config) w1 with
        | (Fulfilled _, w2) =>
            (Fulfilled tt,
             add_events [EvDisplay Success
                           ("Generated " ++ type config ++ " files for "
                            ++ platform config)] w2)
        | (Rejected r, w2) => (Rejected r, w2)
        | (Uncaught r, w2) => (Uncaught r, w2)
        end
    end.
Proof.
  unfold generateForConfig, platform_path. cbv zeta. run.
  destruct (fs_ensureDir env _); [reflexivity |].
  unfold then_ at 1.
  change (fun def : Definition_ =>
            if String.eqb (type config) "icon"
            then transformIcon env imageObj
                   (path_join env [outputdirectory settings; path config]) def
            else if String.eqb (type config) "splash"
                 then transformSplash env imageObj
                        (path_join env [outputdirectory settings; path config]) def
                 else resolve tt)
    with (transform env imageObj (path_join env [outputdirectory settings; path config])
            config).
  destruct (mapSeries _ _ _) as [[ys | r | r] w2]; reflexivity.
Qed.

(** X10: a definition set whose type is neither [icon] nor [splash] has
    its directory made and is reported as generated, although nothing is
    transformed and no file is written. *)
Theorem unknown_type_is_reported_as_generated (imageObj : option ImageObjects)
    (settings : Settings) (config : Config) (w : World) :
  type config <> "icon" ->
  type config <> "splash" ->
  fs_ensureDir env (platform_path env settings config) = None ->
  generateForConfig env imageObj settings config w
  = (Fulfilled tt,
     add_events [EvEnsureDir (platform_path env settings config);
                 EvDisplay Success
                   ("Generated " ++ type config ++ " files for " ++ platform config)] w).
Proof.
  intros Hi Hs Hd. rewrite generateForConfig_eq. cbv zeta. rewrite Hd.
  apply String.eqb_neq in Hi, Hs.
  unfold transform. rewrite Hi, Hs, mapSeries_resolve. same_outcome.
Qed.

End MoreGeneration.

Lemma unknown_type_is_reported_as_generated_witness :
  generateForConfig reliable_env (Some {| icon := 0; splash := 1 |})
    (sample_settings JsUndefined)
    (mkConfig "android" "banner" "android/banner" [mkDefinition "b.png" 10 0 0])
    sample_validated
  = (Fulfilled tt,
     add_events [EvEnsureDir "out/android/banner";
                 EvDisplay Success "Generated banner files for android"]
       sample_validated).
Proof.
  refine (unknown_type_is_reported_as_generated reliable_env
            (Some {| icon := 0; splash := 1 |}) (sample_settings JsUndefined)
            (mkConfig "android" "banner" "android/banner" [mkDefinition "b.png" 10 0 0])
            sample_validated _ _ eq_refl); discriminate.
Defined.

Section Provenance.

Variable env : Env.

Lemma keeps_icon (o : ImageObjects) (bi : Bitmap) (bs : list Bitmap) (evs : list Event)
    (w : World) :
  heap w !! icon o = Some bi ->
  heap (add_objects bs (add_events evs w)) !! icon o = Some bi.
Proof. intros H. cbn [heap add_objects add_events]. apply lookup_app_l_Some. exact H. Qed.

Lemma keeps_splash (o : ImageObjects) (b : Bitmap) (bs : list Bitmap) (evs : list Event)
    (w : World) :
  heap w !! splash o = Some b ->
  heap (add_objects bs (add_events evs w)) !! splash o = Some b.
Proof. intros H. cbn [heap add_objects add_events]. apply lookup_app_l_Some. exact H. Qed.

(** X11: every icon file that is written holds the source icon resized
    once to the size of its definition: no file is made from the image of
    another definition. *)
Theorem written_icons_are_the_resized_source (o : ImageObjects) (settings : Settings)
    (config : Config) (w : World) (bi : Bitmap) :
  type config = "icon" ->
  heap w !! icon o = Some bi ->
  exists evs,
    trace (snd (generateForConfig env (Some o) settings config w)) = (trace w ++ evs)%list
    /\ Forall (fun fb =>
                 exists d, In d (definitions config)
                           /\ fst fb = output_file env settings config d
                           /\ jimp_resize env bi (size d) (size d) = inr (snd fb))
         (written evs).
Proof.
  intros Ht Hi. rewrite generateForConfig_eq. cbv zeta.
  destruct (fs_ensureDir env _) as [err |].
  { eexists. split; [reflexivity | constructor]. }
  destruct (mapSeries_forall written eq_refl written_app
              (fun w' => heap w' !! icon o = Some bi)
              (keeps_icon o bi)
              (transform env (Some o) (platform_path env settings config) config)
              (fun fb =>
                 exists d, In d (definitions config)
                           /\ fst fb = output_file env settings config d
                           /\ jimp_resize env bi (size d) (size d) = inr (snd fb))
              (definitions config))
    with (w := add_events [EvEnsureDir (platform_path env settings config)] w)
    as (bs & evs & s & E & HQ).
  - intros d w' Hin Hw'. unfold transform. rewrite Ht. cbn [String.eqb Ascii.eqb Bool.eqb].
    rewrite (transformIcon_eq env o _ d bi w' Hw'). cbv zeta.
    destruct (jimp_resize env bi (size d) (size d)) as [err | resized] eqn:Hr.
    + eexists _, _, _. split; [reflexivity | constructor].
    + eexists _, _, _. split; [reflexivity |].
      cbn [written]. destruct (jimp_write env _ resized); constructor; [| constructor].
      exists d. repeat split; assumption.
  - exact Hi.
  - rewrite E. destruct s as [ys | r | r]; eexists;
      (split; [cbn [snd trace add_objects add_events]; rewrite <- ?app_assoc; reflexivity |]);
      cbn [app written]; rewrite ?written_app; cbn [written]; rewrite ?app_nil_r; exact HQ.
Qed.

(** X12: every splash file that is written holds the source splash image
    cropped once to the rectangle of its definition. *)
Theorem written_splashes_are_the_cropped_source (o : ImageObjects) (settings : Settings)
    (config : Config) (w : World) (bs : Bitmap) :
  type config = "splash" ->
  heap w !! splash o = Some bs ->
  exists evs,
    trace (snd (generateForConfig env (Some o) settings config w)) = (trace w ++ evs)%list
    /\ Forall (fun fb =>
                 exists d, In d (definitions config)
                           /\ fst fb = output_file env settings config d
                           /\ let '(x, y, wd, ht) := cropRectangle bs d in
                              jimp_crop env bs x y wd ht = inr (snd fb))
         (written evs).
Proof.
  intros Ht Hs. rewrite generateForConfig_eq. cbv zeta.
  destruct (fs_ensureDir env _) as [err |].
  { eexists. split; [reflexivity | constructor]. }
  destruct (mapSeries_forall written eq_refl written_app
              (fun w' => heap w' !! splash o = Some bs)
              (keeps_splash o bs)
              (transform env (Some o) (platform_path env settings config) config)
              (fun fb =>
                 exists d, In d (definitions config)
                           /\ fst fb = output_file env settings config d
                           /\ let '(x, y, wd, ht) := cropRectangle bs d in
                              jimp_crop env bs x y wd ht = inr (snd fb))
              (definitions config))
    with (w := add_events [EvEnsureDir (platform_path env settings config)] w)
    as (cl & evs & s & E & HQ).
  - intros d w' Hin Hw'. unfold transform. rewrite Ht. cbn [String.eqb Ascii.eqb Bool.eqb].
    rewrite (transformSplash_eq env o _ d bs w' Hw').
    destruct (cropRectangle bs d) as [[[x y] wd] ht] eqn:Hc. cbv zeta.
    destruct (jimp_crop env bs x y wd ht) as [err | cropped] eqn:Hr.
    + eexists _, _, _. split; [reflexivity | constructor].
    + eexists _, _, _. split; [reflexivity |].
      cbn [written]. destruct (jimp_write env _ cropped); constructor; [| constructor].
      exists d. rewrite Hc. repeat split; assumption.
  - exact Hs.
  - rewrite E. destruct s as [ys | r | r]; eexists;
      (split; [cbn [snd trace add_objects add_events]; rewrite <- ?app_assoc; reflexivity |]);
      cbn [app written]; rewrite ?written_app; cbn [written]; rewrite ?app_nil_r; exact HQ.
Qed.

End Provenance.

Lemma written_icons_are_the_resized_source_witness :
  exists evs,
    trace (snd (generateForConfig reliable_env (Some {| icon := 0; splash := 1 |})
                  (sample_settings JsUndefined) sample_icons sample_validated))
    = evs
    /\ Forall (fun fb =>
                 exists d, In d (definitions sample_icons)
                           /\ fst fb = output_file reliable_env (sample_settings JsUndefined)
                                         sample_icons d
                           /\ jimp_resize reliable_env (mkBitmap 1024 1024 [])
                                (size d) (size d) = inr (snd fb))
         (written evs).
Proof.
  exact (written_icons_are_the_resized_source reliable_env
           {| icon := 0; splash := 1 |} (sample_settings JsUndefined) sample_icons
           sample_validated (mkBitmap 1024 1024 []) eq_refl eq_refl).
Defined.

Lemma written_splashes_are_the_cropped_source_witness :
  exists evs,
    trace (snd (generateForConfig reliable_env (Some {| icon := 0; splash := 1 |})
                  (sample_settings JsUndefined) sample_splashes sample_validated))
    = evs
    /\ Forall (fun fb =>
                 exists d, In d (definitions sample_splashes)
                           /\ fst fb = output_file reliable_env (sample_settings JsUndefined)
                                         sample_splashes d
                           /\ let '(x, y, wd, ht) := cropRectangle (mkBitmap 2732 2732 []) d in
                              jimp_crop reliable_env (mkBitmap 2732 2732 []) x y wd ht
                              = inr (snd fb))
         (written evs).
Proof.
  exact (written_splashes_are_the_cropped_source reliable_env
           {| icon := 0; splash := 1 |} (sample_settings JsUndefined) sample_splashes
           sample_validated (mkBitmap 2732 2732 []) eq_refl eq_refl).
Defined.

Section Order.

Variable env : Env.




End Order.

Section Completeness.

Variable env : Env.
Hypothesis env_reliable : reliable env.
Variable o : ImageObjects.
Variables bi bs : Bitmap.

Lemma loaded_stable (cl : list Bitmap) (evs : list Event) (w : World) :
  sources_loaded o bi bs w ->
  sources_loaded o bi bs (add_objects cl (add_events evs w)).
Proof.
  intros [Hi Hs]. split; [apply keeps_icon; exact Hi | apply keeps_splash; exact Hs].
Qed.

Lemma transform_writes_its_file (settings : Settings) (config : Config)
    (d : Definition_) (w : World) :
  sources_loaded o bi bs w ->
  exists cl evs y,
    transform env (Some o) (platform_path env settings config) config d w
    = (Fulfilled y, add_objects cl (add_events evs w))
    /\ written_files evs
       = if String.eqb (type config) "icon" || String.eqb (type config) "splash"
         then [output_file env settings config d] else [].
Proof.
  intros [Hi Hs]. destruct env_reliable as (_ & Hresize & Hcrop & Hwrite).
  unfold transform.
  destruct (String.eqb (type config) "icon");
    [| destruct (String.eqb (type config) "splash")]; cbn [orb].
  - rewrite (transformIcon_eq env o _ d bi w Hi). cbv zeta.
    destruct (Hresize bi (size d) (size d)) as [resized ->].
    rewrite Hwrite. eexists _, _, _. split; reflexivity.
  - rewrite (transformSplash_eq env o _ d bs w Hs).
    destruct (cropRectangle bs d) as [[[x y] wd] ht]. cbv zeta.
    destruct (Hcrop bs x y wd ht) as [cropped ->].
    rewrite Hwrite. eexists _, _, _. split; reflexivity.
  - eexists [], [], _. split; [unfold resolve; f_equal; apply unchanged | reflexivity].
Qed.

Lemma flat_map_output_files (settings : Settings) (config : Config) :
  flat_map (fun d =>
              if String.eqb (type config) "icon" || String.eqb (type config) "splash"
              then [output_file env settings config d] else [])
    (definitions config)
  = output_files env settings config.
Proof.
  unfold output_files.
  destruct (String.eqb (type config) "icon" || String.eqb (type config) "splash");
    induction (definitions config) as [| d l IH]; cbn [flat_map map app];
    try rewrite IH; reflexivity.
Qed.

Lemma generateForConfig_writes_its_files (settings : Settings) (config : Config)
    (w : World) :
  sources_loaded o bi bs w ->
  exists cl evs y,
    generateForConfig env (Some o) settings config w
    = (Fulfilled y, add_objects cl (add_events evs w))
    /\ written_files evs = output_files env settings config.
Proof.
  intros Hw. rewrite generateForConfig_eq. cbv zeta.
  destruct env_reliable as (Hdir & _). rewrite Hdir.
  destruct (mapSeries_all written_files eq_refl written_files_app
              (sources_loaded o bi bs) loaded_stable
              (transform env (Some o) (platform_path env settings config) config)
              _ (definitions config)
              (fun d w' Hw' => transform_writes_its_file settings config d w' Hw')
              (add_events [EvEnsureDir (platform_path env settings config)] w)
              Hw)
    as (cl & evs & ys & E & Hf).
  rewrite E. eexists cl, (_ :: evs ++ [_])%list, _. split; [same_outcome |].
  cbn [written_files]. rewrite written_files_app, Hf, flat_map_output_files.
  cbn [written_files]. apply app_nil_r.
Qed.

Lemma generate_writes_its_files (settings : Settings) (w : World)
    (configs : list Config) :
  heap w !! icon o = Some bi ->
  heap w !! splash o = Some bs ->
  collect_configs env (g_selectedPlatforms w) = Some configs ->
  fst (generate env (Some o) settings w) = Fulfilled tt
  /\ exists evs,
       trace (snd (generate env (Some o) settings w)) = (trace w ++ evs)%list
       /\ written_files evs = flat_map (output_files env settings) configs.
Proof.
  intros Hi Hs Hc. unfold generate. run. cbn [g_selectedPlatforms add_events]. rewrite Hc.
  destruct (mapSeries_all written_files eq_refl written_files_app
              (sources_loaded o bi bs) loaded_stable
              (fun config => generateForConfig env (Some o) settings config)
              (output_files env settings) configs
              (fun config w' Hw' => generateForConfig_writes_its_files settings config w' Hw')
              (add_events [EvDisplay Header "Generating files"] w)
              (conj Hi Hs))
    as (cl & evs & ys & E & Hf).
  rewrite (then_fulfilled _ _ _ _ _ E). split; [reflexivity |].
  exists (EvDisplay Header "Generating files" :: evs).
  split; [cbn [snd resolve trace add_objects add_events]; rewrite <- app_assoc; reflexivity |].
  cbn [written_files]. exact Hf.
Qed.

(** X14: with collaborators that never fail and the two source images in
    place, generation succeeds and writes every file of every definition
    set of the selected platforms, in the order of the sets and of their
    definitions. *)
Theorem reliable_generation_writes_every_file (settings : Settings) (w : World)
    (configs : list Config) :
  heap w !! icon o = Some bi ->
  heap w !! splash o = Some bs ->
  collect_configs env (g_selectedPlatforms w) = Some configs ->
  fst (generate env (Some o) settings w) = Fulfilled tt
  /\ exists evs,
       trace (snd (generate env (Some o) settings w)) = (trace w ++ evs)%list
       /\ written_files evs = flat_map (output_files env settings) configs.
Proof. exact (generate_writes_its_files settings w configs). Qed.

End Completeness.

Lemma reliable_generation_writes_every_file_witness :
  fst (generate reliable_env (Some {| icon := 0; splash := 1 |})
         (sample_settings JsUndefined) sample_validated) = Fulfilled tt
  /\ exists evs,
       trace (snd (generate reliable_env (Some {| icon := 0; splash := 1 |})
                     (sample_settings JsUndefined) sample_validated)) = evs
       /\ written_files evs
          = ["out/android/icon/ldpi.png"; "out/android/icon/mdpi.png";
             "out/android/icon/hdpi.png"; "out/android/splash/port.png"].
Proof.
  exact (reliable_generation_writes_every_file reliable_env
           (conj (fun _ => eq_refl)
              (conj (fun _ w h => ex_intro _ (mkBitmap w h []) eq_refl)
                 (conj (fun _ _ _ w h => ex_intro _ (mkBitmap w h []) eq_refl)
                    (fun _ _ => eq_refl))))
           {| icon := 0; splash := 1 |} (mkBitmap 1024 1024 []) (mkBitmap 2732 2732 [])
           (sample_settings JsUndefined) sample_validated
           [sample_icons; sample_splashes] eq_refl eq_refl eq_refl).
Defined.

(** ** The whole run, continued *)

(** The world that a successful validation leaves. *)
Lemma check_fulfilled_world (env : Env) (settings : Settings) (w : World) :
  fst (check env settings w) = Fulfilled tt ->
  exists sel bi bs,
    fst (checkPlatforms settings w) = Fulfilled sel
    /\ g_selectedPlatforms (snd (check env settings w)) = sel
    /\ g_imageObjects (snd (check env settings w))
       = Some {| icon := length (heap w); splash := S (length (heap w)) |}
    /\ heap (snd (check env settings w)) = (heap w ++ [bi; bs])%list
    /\ written_files (trace (snd (check env settings w))) = written_files (trace w).
Proof.
  check_cases env settings; try discriminate.
  intros _. eexists _, _, _.
  rewrite <- ?app_assoc, ?length_app, ?written_files_app.
  cbn [length app written_files]. rewrite ?app_nil_r, ?Nat.add_1_r.
  repeat split; reflexivity.
Qed.

(** X15: a run with collaborators that never fail and a validation that
    succeeds ends fulfilled, having written exactly the files of the
    definition sets of the selected platforms, in order. *)
Theorem valid_run_writes_every_file (env : Env) (program : Program) :
  reliable env ->
  fst (check env (g_settings env program)
         (add_events [EvConsoleLog "";
                      EvConsoleLog ("cordova-res-generator " ++ pjson_version env)] initial))
  = Fulfilled tt ->
  exists sel configs,
    fst (checkPlatforms (g_settings env program) initial) = Fulfilled sel
    /\ collect_configs env sel = Some configs
    /\ fst (main env program initial) = Fulfilled tt
    /\ written_files (trace (snd (main env program initial)))
       = flat_map (output_files env (g_settings env program)) configs.
Proof.
  intros Hrel Hcheck.
  destruct (check_fulfilled_world env _ _ Hcheck)
    as (sel & bi & bs & Hsel & Hg & Ho & Hheap & Hwr).
  destruct (collect_configs_known env sel (selection_in_registry _ _ _ Hsel))
    as [configs Hc].
  exists sel, configs.
  split.
  { destruct (checkPlatforms_effect (g_settings env program))
      as (s & lvl & msg & _ & Hp).
    rewrite Hp in Hsel. rewrite Hp. exact Hsel. }
  split; [exact Hc |].
  unfold main. run. unfold catch_.
  destruct (check env (g_settings env program) _) as [s w1] eqn:E.
  cbn [fst snd] in Hcheck, Hg, Ho, Hheap, Hwr. subst s.
  rewrite (then_fulfilled _ _ _ _ _ E), Ho.
  destruct (generate_writes_its_files env Hrel
              {| icon := 0; splash := 1 |} bi bs (g_settings env program) w1 configs)
    as (Hf & evs & Ht & Hfiles).
  - rewrite Hheap. reflexivity.
  - rewrite Hheap. reflexivity.
  - rewrite Hg. exact Hc.
  - cbn [initial heap add_events length] in *.
    destruct (generate env _ (g_settings env program) w1) as [s w2].
    cbn [fst snd] in Hf, Ht. subst s. split; [reflexivity |].
    cbn [snd]. rewrite Ht, written_files_app, Hwr, Hfiles. reflexivity.
Qed.

Lemma valid_run_writes_every_file_witness :
  exists sel configs,
    fst (checkPlatforms (g_settings reliable_env (sample_program (JsString "android")))
           initial) = Fulfilled sel
    /\ collect_configs reliable_env sel = Some configs
    /\ fst (main reliable_env (sample_program (JsString "android")) initial) = Fulfilled tt
    /\ written_files
         (trace (snd (main reliable_env (sample_program (JsString "android")) initial)))
       = flat_map (output_files reliable_env
                     (g_settings reliable_env (sample_program (JsString "android"))))
           configs.
Proof.
  exact (valid_run_writes_every_file reliable_env (sample_program (JsString "android"))
           (conj (fun _ => eq_refl)
              (conj (fun _ w h => ex_intro _ (mkBitmap w h []) eq_refl)
                 (conj (fun _ _ _ w h => ex_intro _ (mkBitmap w h []) eq_refl)
                    (fun _ _ => eq_refl))))
           eq_refl).
Defined.

(** X16: a validation that is rejected is reported by the orchestrator,
    the reason on the last line of the console, unless the reason is the
    empty string, which [catchErrors] takes for no error and does not
    print. *)
Theorem rejected_validation_is_logged (env : Env) (program : Program) (r : Reason) :
  fst (check env (g_settings env program)
         (add_events [EvConsoleLog "";
                      EvConsoleLog ("cordova-res-generator " ++ pjson_version env)] initial))
  = Rejected r ->
  fst (main env program initial) = Fulfilled tt
  /\ (r <> Thrown "" ->
      last (trace (snd (main env program initial))) = Some (EvConsoleError r))
  /\ (r = Thrown "" ->
      List.filter (fun e => match e with EvConsoleError _ => true | _ => false end)
        (trace (snd (main env program initial))) = []).
Proof.
  intros Hcheck. unfold main. run. unfold catch_.
  assert (Hquiet :
    List.filter (fun e => match e with EvConsoleError _ => true | _ => false end)
      (trace (snd (check env (g_settings env program)
                     (add_events [EvConsoleLog "";
                                  EvConsoleLog ("cordova-res-generator "
                                                ++ pjson_version env)] initial))))
    = []).
  { clear Hcheck. check_cases env (g_settings env program); reflexivity. }
  destruct (check env (g_settings env program) _) as [s w1] eqn:E.
  cbn [fst snd] in Hcheck, Hquiet. subst s.
  rewrite (then_rejected _ _ _ _ _ E).
  split; [apply catchErrors_fulfils |]. split.
  - intros Hr. destruct r as [[| c msg] | msg]; [contradiction | |];
      cbn [catchErrors emit snd trace add_events]; apply last_snoc.
  - intros ->. exact Hquiet.
Qed.

Lemma rejected_validation_is_logged_witness :
  last (trace (snd (main (sample_env (mkBitmap 512 512 []) (mkBitmap 2732 2732 []) "")
                      (sample_program (JsString "android")) initial)))
  = Some (EvConsoleError (Thrown "Bad image format")).
Proof.
  refine (proj1 (proj2 (rejected_validation_is_logged
                          (sample_env (mkBitmap 512 512 []) (mkBitmap 2732 2732 []) "")
                          (sample_program (JsString "android"))
                          (Thrown "Bad image format") eq_refl)) _).
  discriminate.
Defined.

Lemma main_keeps_the_loaded_sources_witness :
  exists bi bs clones,
    jimp_read reliable_env "icon.png" = inr bi
    /\ jimp_read reliable_env "splash.png" = inr bs
    /\ heap (snd (main reliable_env (sample_program (JsString "android")) initial))
       = ([bi; bs] ++ clones)%list.
Proof.
  exact (main_keeps_the_loaded_sources reliable_env (sample_program (JsString "android"))
           eq_refl).
Defined.

(** ** The output files of a definition set *)

Section Written.

Context {A B : Type}.
Variable f : A -> Promise B.
Variable g : A -> string.

(** A step that fulfils has written its file; a step that does not has
    written nothing, whether or not it came to call [write]. *)
Hypothesis step :
  forall x w, exists bs evs s,
    f x w = (s, add_objects bs (add_events evs w))
    /\ (((exists y, s = Fulfilled y)
         /\ write_targets evs = [g x] /\ written_files evs = [g x])
        \/ ((forall y, s <> Fulfilled y)
            /\ written_files evs = []
            /\ (write_targets evs = [] \/ write_targets evs = [g x]))).

(** The series has written the files of the first [m] elements: of all of
    them when it fulfils, of fewer when it does not. *)
Lemma mapSeries_written (l : list A) (w : World) :
  exists bs evs s n m,
    mapSeries l f w = (s, add_objects bs (add_events evs w))
    /\ write_targets evs = map g (take n l)
    /\ written_files evs = map g (take m l)
    /\ (m <= n <= S m)%nat
    /\ match s with
       | Fulfilled _ => m = length l
       | _ => (m < length l)%nat
       end.
Proof.
  revert w. induction l as [| x l IH]; intros w.
  - exists [], [], (Fulfilled []), 0%nat, 0%nat.
    split; [cbn [mapSeries]; unfold resolve; f_equal; apply unchanged |].
    repeat split; lia.
  - destruct (step x w) as (bs & evs & s & E & Hs). cbn [mapSeries].
    destruct Hs as [([y ->] & Ht & Hw) | (Hn & Hw & Ht)].
    + rewrite (then_fulfilled _ _ _ _ _ E).
      destruct (IH (add_objects bs (add_events evs w)))
        as (bs' & evs' & s' & n & m & E' & Ht' & Hw' & Hnm & Hout).
      exists (bs ++ bs')%list, (evs ++ evs')%list.
      destruct s' as [ys | r | r];
        [ rewrite (then_fulfilled _ _ _ _ _ E')
        | rewrite (then_rejected _ _ _ _ _ E')
        | rewrite (then_uncaught _ _ _ _ _ E') ];
        eexists _, (S n), (S m);
        rewrite changed_twice, write_targets_app, written_files_app, Ht, Hw, Ht', Hw';
        cbn [length]; repeat split; lia.
    + destruct s as [y | r | r]; [destruct (Hn y); reflexivity | |];
        [ rewrite (then_rejected _ _ _ _ _ E) | rewrite (then_uncaught _ _ _ _ _ E) ];
        (destruct Ht as [Ht | Ht];
         [ eexists bs, evs, _, 0%nat, 0%nat | eexists bs, evs, _, 1%nat, 0%nat ];
         rewrite Ht, Hw; cbn [length]; repeat split; lia).
Qed.

End Written.

Section Layout.

Variable env : Env.

Lemma transformIcon_written (imageObj : option ImageObjects) (platformPath : string)
    (d : Definition_) (w : World) :
  exists bs evs s,
    transformIcon env imageObj platformPath d w = (s, add_objects bs (add_events evs w))
    /\ (((exists y, s = Fulfilled y)
         /\ write_targets evs = [path_join env [platformPath; name d]]
         /\ written_files evs = [path_join env [platformPath; name d]])
        \/ ((forall y, s <> Fulfilled y)
            /\ written_files evs = []
            /\ (write_targets evs = []
                \/ write_targets evs = [path_join env [platformPath; name d]]))).
Proof.
  destruct imageObj as [o |]; [destruct (heap w !! icon o) as [bi |] eqn:H |].
  - rewrite (transformIcon_eq env o platformPath d bi w H). cbv zeta.
    destruct (jimp_resize env bi (size d) (size d)) as [err | resized].
    + eexists _, _, _. split; [reflexivity | right].
      split; [discriminate | split; [reflexivity | left; reflexivity]].
    + destruct (jimp_write env _ resized) as [err |];
        eexists _, _, _; (split; [reflexivity |]).
      * right. split; [discriminate | split; [reflexivity | right; reflexivity]].
      * left. split; [eexists; reflexivity | split; reflexivity].
  - unfold transformIcon.
    rewrite (then_rejected _ _ _ _ _ (clone_fails (Some o) icon w H)).
    exists [], [], (Rejected (LibError "TypeError")).
    split; [f_equal; apply unchanged | right].
    split; [discriminate | split; [reflexivity | left; reflexivity]].
  - unfold transformIcon.
    rewrite (then_rejected _ _ _ _ _ (clone_fails None icon w I)).
    exists [], [], (Rejected (LibError "TypeError")).
    split; [f_equal; apply unchanged | right].
    split; [discriminate | split; [reflexivity | left; reflexivity]].
Qed.

Lemma transformSplash_written (imageObj : option ImageObjects) (platformPath : string)
    (d : Definition_) (w : World) :
  exists bs evs s,
    transformSplash env imageObj platformPath d w = (s, add_objects bs (add_events evs w))
    /\ (((exists y, s = Fulfilled y)
         /\ write_targets evs = [path_join env [platformPath; name d]]
         /\ written_files evs = [path_join env [platformPath; name d]])
        \/ ((forall y, s <> Fulfilled y)
            /\ written_files evs = []
            /\ (write_targets evs = []
                \/ write_targets evs = [path_join env [platformPath; name d]]))).
Proof.
  destruct imageObj as [o |]; [destruct (heap w !! splash o) as [b |] eqn:H |].
  - rewrite (transformSplash_eq env o platformPath d b w H).
    destruct (cropRectangle b d) as [[[x y] wd] ht]. cbv zeta.
    destruct (jimp_crop env b x y wd ht) as [err | cropped].
    + eexists _, _, _. split; [reflexivity | right].
      split; [discriminate | split; [reflexivity | left; reflexivity]].
    + destruct (jimp_write env _ cropped) as [err |];
        eexists _, _, _; (split; [reflexivity |]).
      * right. split; [discriminate | split; [reflexivity | right; reflexivity]].
      * left. split; [eexists; reflexivity | split; reflexivity].
  - unfold transformSplash.
    rewrite (then_rejected _ _ _ _ _ (clone_fails (Some o) splash w H)).
    exists [], [], (Rejected (LibError "TypeError")).
    split; [f_equal; apply unchanged | right].
    split; [discriminate | split; [reflexivity | left; reflexivity]].
  - unfold transformSplash.
    rewrite (then_rejected _ _ _ _ _ (clone_fails None splash w I)).
    exists [], [], (Rejected (LibError "TypeError")).
    split; [f_equal; apply unchanged | right].
    split; [discriminate | split; [reflexivity | left; reflexivity]].
Qed.

(** The definitions of a set, one after the other: what is written and
    how far the series came. *)
Lemma definitions_written (imageObj : option ImageObjects) (settings : Settings)
    (config : Config) (w : World) :
  exists bs evs s n m,
    mapSeries (definitions config)
      (transform env imageObj (platform_path env settings config) config) w
    = (s, add_objects bs (add_events evs w))
    /\ write_targets evs = map (output_file env settings config) (take n (definitions config))
    /\ written_files evs = map (output_file env settings config) (take m (definitions config))
    /\ (m <= n <= S m)%nat
    /\ match s with
       | Fulfilled _ =>
           written_files evs
           = if String.eqb (type config) "icon" || String.eqb (type config) "splash"
             then map (output_file env settings config) (definitions config)
             else []
       | _ => (m < length (definitions config))%nat
       end.
Proof.
  unfold transform.
  destruct (String.eqb (type config) "icon") eqn:Ti;
    [| destruct (String.eqb (type config) "splash") eqn:Ts]; cbn [orb].
  - destruct (mapSeries_written
                (fun def => transformIcon env imageObj (platform_path env settings config) def)
                (output_file env settings config)
                (transformIcon_written imageObj (platform_path env settings config))
                (definitions config) w)
      as (bs & evs & s & n & m & E & Ht & Hw & Hnm & Hout).
    exists bs, evs, s, n, m. repeat (split; [assumption || lia |]).
    destruct s; [| exact Hout | exact Hout].
    rewrite Hw, Hout, firstn_all. reflexivity.
  - destruct (mapSeries_written
                (fun def => transformSplash env imageObj (platform_path env settings config) def)
                (output_file env settings config)
                (transformSplash_written imageObj (platform_path env settings config))
                (definitions config) w)
      as (bs & evs & s & n & m & E & Ht & Hw & Hnm & Hout).
    exists bs, evs, s, n, m. repeat (split; [assumption || lia |]).
    destruct s; [| exact Hout | exact Hout].
    rewrite Hw, Hout, firstn_all. reflexivity.
  - rewrite mapSeries_resolve. eexists [], [], _, 0%nat, 0%nat.
    split; [f_equal; apply unchanged |]. repeat split; lia.
Qed.

(** C8: a definition set first has its directory, the join of the output
    directory and the path of the set, ensured, and nothing is written when
    that fails.  The files written afterwards are, in the order of the
    definitions, the joins of that directory and the names of the
    definitions: those of the first [m] definitions, of every definition
    when the set is generated, of fewer when a definition fails; the one
    call of [write] that may follow them is the one that failed. *)
Theorem output_file_layout (imageObj : option ImageObjects)
    (settings : Settings) (config : Config) (w : World) :
  exists evs n m,
    trace (snd (generateForConfig env imageObj settings config w))
    = (trace w
       ++ EvEnsureDir (path_join env [outputdirectory settings; path config]) :: evs)%list
    /\ write_targets evs
       = map (fun d => path_join env
                         [path_join env [outputdirectory settings; path config]; name d])
           (take n (definitions config))
    /\ written_files evs
       = map (fun d => path_join env
                         [path_join env [outputdirectory settings; path config]; name d])
           (take m (definitions config))
    /\ (m <= n <= S m)%nat
    /\ match fs_ensureDir env (path_join env [outputdirectory settings; path config]) with
       | Some err =>
           fst (generateForConfig env imageObj settings config w) = Rejected err
           /\ evs = []
       | None =>
           match fst (generateForConfig env imageObj settings config w) with
           | Fulfilled _ =>
               written_files evs
               = if String.eqb (type config) "icon" || String.eqb (type config) "splash"
                 then map (fun d => path_join env
                                      [path_join env [outputdirectory settings; path config];
                                       name d])
                        (definitions config)
                 else []
           | _ => (m < length (definitions config))%nat
           end
       end.
Proof.
  rewrite generateForConfig_eq. cbv zeta.
  change (path_join env [outputdirectory settings; path config])
    with (platform_path env settings config).
  change (fun d => path_join env [platform_path env settings config; name d])
    with (output_file env settings config).
  destruct (fs_ensureDir env (platform_path env settings config)) as [err |].
  { exists [], 0%nat, 0%nat. repeat split; lia. }
  destruct (definitions_written imageObj settings config
              (add_events [EvEnsureDir (platform_path env settings config)] w))
    as (bs & evs & s & n & m & E & Ht & Hw & Hnm & Hout).
  rewrite E. destruct s as [ys | r | r]; cbn [fst snd].
  - exists (evs ++ [EvDisplay Success
                      ("Generated " ++ type config ++ " files for " ++ platform config)])%list,
           n, m.
    rewrite write_targets_app, written_files_app.
    cbn [write_targets written_files]. rewrite !app_nil_r.
    split; [cbn [trace add_objects add_events]; rewrite <- !app_assoc; reflexivity |].
    repeat (split; [assumption || lia |]). exact Hout.
  - exists evs, n, m.
    split; [cbn [trace add_objects add_events]; rewrite <- !app_assoc; reflexivity |].
    repeat (split; [assumption || lia |]). exact Hout.
  - exists evs, n, m.
    split; [cbn [trace add_objects add_events]; rewrite <- !app_assoc; reflexivity |].
    repeat (split; [assumption || lia |]). exact Hout.
Qed.

End Layout.

(** ** Write errors and the end of the run *)


Section Escapes.

Variable env : Env.








End Escapes.


(** ** The order of the definition sets *)

Section Stops.

Context {A B T : Type}.
Variable tg : list Event -> list T.
Hypothesis tg_nil : tg [] = [].
Hypothesis tg_app : forall e1 e2, tg (e1 ++ e2) = (tg e1 ++ tg e2)%list.
Variable f : A -> Promise B.
Variable g : A -> T.
Hypothesis step :
  forall x w, exists bs evs s,
    f x w = (s, add_objects bs (add_events evs w)) /\ tg evs = [g x].


End Stops.


